(** * application.py: upload, transcode, store, detect, relay

    A shallow embedding of the Flask service in [application.py] and the
    properties of its request handlers.

    - Python [str] is [string]; [lower()] is modelled on the ASCII letters,
      which is all the extension check can observe.
    - JSON data (request bodies, boto3 responses, response payloads) is
      [value]; a Python [dict] with string keys is a [gmap string value].
    - Every call that leaves the process (file write, transcoder, S3,
      Rekognition, the completion API, [time.sleep]) appends one [event] to
      the history; what the collaborator answers is a function of the
      history so far, given by a [Services] instance.
    - Handlers run in [M], a state-and-exception monad over the history.
      [while True] is unrolled with fuel; running out of fuel is [Diverge],
      which no [except] clause catches.
    - [logger] calls are left out: they neither raise nor influence any
      value or any call made. *)

From stdpp Require Import gmap strings list fin_maps.
From Stdlib Require Import ZArith Ascii.

#[local] Set Warnings "-register-all".

(* ================================================================== *)
(** * Values and exceptions *)

Inductive value : Type :=
| VNull
| VBool (b : bool)
| VNum (n : Z)
| VStr (s : string)
| VList (l : list value)
| VDict (d : gmap string value).

(** Python truthiness, as used by [if not user_input]. *)
Definition truthy (v : value) : bool :=
  match v with
  | VNull => false
  | VBool b => b
  | VNum n => negb (n =? 0)%Z
  | VStr s => negb (String.eqb s "")
  | VList l => negb (Nat.eqb (length l) 0)
  | VDict d => negb (Nat.eqb (size d) 0)
  end.

(** [v == 'literal'] for a string literal on the right. *)
Definition eq_str (v : value) (lit : string) : bool :=
  match v with
  | VStr s => String.eqb s lit
  | _ => false
  end.

(** [d.get(key, default)] *)
Definition dict_get (d : gmap string value) (key : string) (dflt : value) : value :=
  default dflt (d !! key).

Inductive exn : Type :=
| Exception (arg : value)          (* raise Exception(arg) *)
| KeyError (key : string)          (* d[key], key absent *)
| IndexError (msg : string)        (* l[i], i out of range *)
| AttributeError (msg : string)    (* x.get on something that is no dict *)
| ServiceError (msg : string).     (* raised by a collaborator; msg is its str() *)

(** What the platform provides and the source only uses. *)
Class Runtime := {
  (** [os.path.dirname(os.path.abspath(__file__))] *)
  BASE_DIR : string;
  (** [werkzeug.utils.secure_filename] *)
  secure_filename : string → string;
  (** [str(x)] for an [x] that is not already a [str] *)
  str_object : value → string
}.

Definition py_str `{Runtime} (v : value) : string :=
  match v with
  | VStr s => s
  | _ => str_object v
  end.

(** [str(e)] *)
Definition str_exn `{Runtime} (e : exn) : string :=
  match e with
  | Exception arg => py_str arg
  | KeyError key => "'" +:+ key +:+ "'"
  | IndexError msg => msg
  | AttributeError msg => msg
  | ServiceError msg => msg
  end.

(* ================================================================== *)
(** * Outcomes of pure code that may raise *)

Inductive outcome (A : Type) : Type :=
| Ret (a : A)
| Raise (e : exn)
| Diverge.
Arguments Ret {A} a.
Arguments Raise {A} e.
Arguments Diverge {A}.

#[export] Instance outcome_ret : MRet outcome := @Ret.
#[export] Instance outcome_bind : MBind outcome := λ A B f m,
  match m with
  | Ret a => f a
  | Raise e => Raise e
  | Diverge => Diverge
  end.

(** [l[i]] *)
Definition list_index {A} (l : list A) (i : nat) : outcome A :=
  match l !! i with
  | Some x => Ret x
  | None => Raise (IndexError "list index out of range")
  end.

(** [d[key]] *)
Definition dict_index (d : gmap string value) (key : string) : outcome value :=
  match d !! key with
  | Some v => Ret v
  | None => Raise (KeyError key)
  end.

(* ================================================================== *)
(** * Strings *)

Module Str.

(** [c.lower()] for one character *)
Definition lower_ascii (c : ascii) : ascii :=
  let n := nat_of_ascii c in
  if (65 <=? n)%nat && (n <=? 90)%nat then ascii_of_nat (n + 32) else c.

(** [s.lower()] *)
Fixpoint lower (s : string) : string :=
  match s with
  | EmptyString => EmptyString
  | String c s' => String (lower_ascii c) (lower s')
  end.

(** [sep in s] for a one-character [sep] *)
Fixpoint contains (sep : ascii) (s : string) : bool :=
  match s with
  | EmptyString => false
  | String c s' => Ascii.eqb c sep || contains sep s'
  end.

(** The two sides of the last occurrence of [sep] in [s], if there is one. *)
Fixpoint rpartition (sep : ascii) (s : string) : option (string * string) :=
  match s with
  | EmptyString => None
  | String c s' =>
      match rpartition sep s' with
      | Some (before, after) => Some (String c before, after)
      | None => if Ascii.eqb c sep then Some (EmptyString, s') else None
      end
  end.

(** [s.rsplit(sep, 1)] *)
Definition rsplit1 (sep : ascii) (s : string) : list string :=
  match rpartition sep s with
  | Some (before, after) => [before; after]
  | None => [s]
  end.

(** [s.startswith(c)], [s.endswith(c)] for a one-character [c] *)
Definition startswith (c : ascii) (s : string) : bool :=
  match s with
  | String c' _ => Ascii.eqb c' c
  | EmptyString => false
  end.

Fixpoint endswith (c : ascii) (s : string) : bool :=
  match s with
  | EmptyString => false
  | String c' EmptyString => Ascii.eqb c' c
  | String _ s' => endswith c s'
  end.

End Str.

(** [os.path] on a POSIX host. *)
Module posixpath.

(** [os.path.join(a, b)] *)
Definition join (a b : string) : string :=
  if Str.startswith "/" b then b
  else if String.eqb a "" || Str.endswith "/" a then a +:+ b
  else a +:+ "/" +:+ b.

(** [os.path.basename(p)]: what follows the last slash *)
Definition basename (p : string) : string :=
  match Str.rpartition "/" p with
  | Some (_, tail) => tail
  | None => p
  end.

End posixpath.

(* ================================================================== *)
(** * Configuration *)

Definition S3_BUCKET : string := "jchang-fbla-bucket".
Definition UPLOAD_FOLDER `{Runtime} : string := posixpath.join BASE_DIR "uploads".
Definition ALLOWED_EXTENSIONS : gset string := {[ "mp4"; "mov"; "avi" ]}.

(* ================================================================== *)
(** * allowed_file *)

Definition allowed_file (filename : string) : outcome bool :=
  if Str.contains "." filename then
    ext ← list_index (Str.rsplit1 "." filename) 1;
    mret (bool_decide (Str.lower ext ∈ ALLOWED_EXTENSIONS))
  else mret false.

(** The reading of the extension rule: the name splits at a dot into a
    stem and a dot-free suffix whose lower-case form is allowed. *)
Definition has_allowed_suffix (filename : string) : Prop :=
  ∃ stem ext : string,
    filename = stem +:+ "." +:+ ext ∧
    Str.contains "." ext = false ∧
    Str.lower ext ∈ ALLOWED_EXTENSIONS.

(* ================================================================== *)
(** * Collaborators and the history of calls *)

(** [werkzeug.datastructures.FileStorage]: one part of a multipart body. *)
Record FileStorage := { filename : string; stream : string }.

(** The object the completion API returns, as far as the handler reads it:
    [response.choices[0].message.content]. *)
Record ChatCompletionMessage := { content : option string }.
Record Choice := { message : ChatCompletionMessage }.
Record ChatCompletion := { choices : list Choice }.

(** What a collaborator answers: a result, or an exception. *)
Inductive reply (A : Type) : Type :=
| Returns (x : A)
| Throws (e : exn).
Arguments Returns {A} x.
Arguments Throws {A} e.

(** One call that left the process, with its arguments and its answer. *)
Inductive event : Type :=
| FileSave (file : FileStorage) (dst : string) (r : reply unit)
| ConvertVideo (input_path : string) (r : reply string)
| S3UploadFile (Filename Bucket Key : string) (r : reply unit)
| StartFaceDetection (Video : value) (FaceAttributes : string)
    (r : reply (gmap string value))
| GetFaceDetection (JobId : value) (r : reply (gmap string value))
| Sleep (secs : Z)
| ChatCompletionsCreate (model : string) (messages : value) (max_tokens : Z)
    (r : reply ChatCompletion).

(** The collaborators. Each answer may depend on everything that happened
    before the call. *)
Class Services := {
  (** [file.save(dst)] *)
  file_save : list event → FileStorage → string → reply unit;
  (** [convert.convert_video_to_aws_rekognition(path)] *)
  convert_video_to_aws_rekognition : list event → string → reply string;
  (** [s3_client.upload_file(Filename, Bucket, Key)] *)
  s3_upload_file : list event → string → string → string → reply unit;
  (** [rekognition_client.start_face_detection(Video=.., FaceAttributes=..)] *)
  start_face_detection : list event → value → string → reply (gmap string value);
  (** [rekognition_client.get_face_detection(JobId=..)] *)
  get_face_detection : list event → value → reply (gmap string value);
  (** [gpt_client.chat.completions.create(model=.., messages=.., max_tokens=..)] *)
  chat_completions_create : list event → string → value → Z → reply ChatCompletion
}.

(* ================================================================== *)
(** * The monad of handlers *)

Definition M (A : Type) : Type := list event → outcome A * list event.

#[export] Instance M_ret : MRet M := λ A a h, (Ret a, h).
#[export] Instance M_bind : MBind M := λ A B f m h,
  match m h with
  | (Ret a, h') => f a h'
  | (Raise e, h') => (Raise e, h')
  | (Diverge, h') => (Diverge, h')
  end.

(** Pure code inside a handler. *)
Definition lift {A} (o : outcome A) : M A := λ h, (o, h).

Definition reply_outcome {A} (r : reply A) : outcome A :=
  match r with
  | Returns x => Ret x
  | Throws e => Raise e
  end.

(** Call a collaborator: ask it, record call and answer, pass the answer on. *)
Definition perform {A} (ask : list event → reply A) (record : reply A → event) : M A :=
  λ h, let r := ask h in (reply_outcome r, h ++ [record r]).

(** [time.sleep(secs)] *)
Definition sleep (secs : Z) : M unit := λ h, (Ret tt, h ++ [Sleep secs]).

(** [try: body  except Exception as e: handler(e)] *)
Definition try_except {A} (body : M A) (handler : exn → M A) : M A := λ h,
  match body h with
  | (Raise e, h') => handler e h'
  | r => r
  end.

(** A handler's answer: [(jsonify(body), status)]. *)
Definition response : Type := value * Z.
Definition jsonify (body : value) : value := body.
Definition error_body (msg : string) : value := VDict {[ "error" := VStr msg ]}.

(* ================================================================== *)
(** * The functions of application.py *)

Section Application.
Context `{Runtime} `{Services}.

Definition save_uploaded_file (file : FileStorage) (upload_folder : string) : M string :=
  let filename := secure_filename (filename file) in
  let file_path := posixpath.join upload_folder filename in
  perform (λ h, file_save h file file_path) (FileSave file file_path);;
  mret file_path.

Fixpoint poll_face_detection (fuel : nat) (job_id : value) : M value :=
  match fuel with
  | O => lift Diverge
  | S fuel' =>
      response ← perform (λ h, get_face_detection h job_id) (GetFaceDetection job_id);
      status ← lift (dict_index response "JobStatus");
      if eq_str status "SUCCEEDED" then
        mret (VDict {[ "status" := VStr "SUCCEEDED";
                       "video_metadata" := dict_get response "VideoMetadata" (VDict ∅);
                       "faces" := dict_get response "Faces" (VList []);
                       "next_token" := dict_get response "NextToken" (VStr "") ]})
      else if eq_str status "IN_PROGRESS" then
        sleep 5;;
        poll_face_detection fuel' job_id
      else
        let error_message := dict_get response "StatusMessage" (VStr "Face detection failed") in
        lift (Raise (Exception error_message))
  end.

Definition process_face_detection (fuel : nat) (video_name : string) : M response :=
  try_except
    (response ← perform
        (λ h, start_face_detection h
           (VDict {[ "S3Object" := VDict {[ "Bucket" := VStr S3_BUCKET;
                                            "Name" := VStr video_name ]} ]}) "ALL")
        (StartFaceDetection
           (VDict {[ "S3Object" := VDict {[ "Bucket" := VStr S3_BUCKET;
                                            "Name" := VStr video_name ]} ]}) "ALL");
     job_id ← lift (dict_index response "JobId");
     result ← poll_face_detection fuel job_id;
     mret (jsonify result, 200%Z))
    (λ e, mret (jsonify (error_body (str_exn e)), 500%Z)).

(** [x.get] exists on a dict only. *)
Definition type_name (v : value) : string :=
  match v with
  | VNull => "NoneType"
  | VBool _ => "bool"
  | VNum _ => "int"
  | VStr _ => "str"
  | VList _ => "list"
  | VDict _ => "dict"
  end.

Definition get_method (data : value) (key : string) (dflt : value) : outcome value :=
  match data with
  | VDict d => Ret (dict_get d key dflt)
  | _ => Raise (AttributeError
                  ("'" +:+ type_name data +:+ "' object has no attribute 'get'"))
  end.

(** [POST /gpt]; [data] is [request.get_json()]. *)
Definition gpt_api (data : value) : M response :=
  user_input ← lift (get_method data "input" (VStr ""));
  if negb (truthy user_input) then
    mret (jsonify (error_body "No input provided"), 400%Z)
  else
    try_except
      (response ← perform
          (λ h, chat_completions_create h "gpt-3.5-turbo"
             (VList [VDict {[ "role" := VStr "user"; "content" := user_input ]}]) 150)
          (ChatCompletionsCreate "gpt-3.5-turbo"
             (VList [VDict {[ "role" := VStr "user"; "content" := user_input ]}]) 150);
       choice ← lift (list_index (choices response) 0);
       let gpt_response := content (message choice) in
       mret (jsonify (VDict {[ "response" := from_option VStr VNull gpt_response ]}),
             200%Z))
      (λ e, mret (jsonify (error_body (str_exn e)), 500%Z)).

(** [POST /upload]; [files] is [request.files]. *)
Definition upload_video (fuel : nat) (files : gmap string FileStorage) : M response :=
  match files !! "file" with
  | None => mret (jsonify (error_body "No file part"), 400%Z)
  | Some file =>
      if String.eqb (filename file) "" then
        mret (jsonify (error_body "No file selected"), 400%Z)
      else
        allowed ← lift (allowed_file (filename file));
        if negb allowed then
          mret (jsonify (error_body "Invalid file type. Allowed types: mp4, mov, avi"),
                400%Z)
        else
          try_except
            (saved_file_path ← save_uploaded_file file UPLOAD_FOLDER;
             converted_path ← perform
                (λ h, convert_video_to_aws_rekognition h saved_file_path)
                (ConvertVideo saved_file_path);
             let converted_filename := posixpath.basename converted_path in
             perform (λ h, s3_upload_file h converted_path S3_BUCKET converted_filename)
                     (S3UploadFile converted_path S3_BUCKET converted_filename);;
             process_face_detection fuel converted_filename)
            (λ e, mret (jsonify (error_body (str_exn e)), 500%Z))
  end.

End Application.

(* ================================================================== *)
(** * Reading a history *)

(** The answers to the status requests, oldest first. *)
Definition status_requests (h : list event) : list (value * reply (gmap string value)) :=
  omap (λ e, match e with GetFaceDetection j r => Some (j, r) | _ => None end) h.

(** The lengths of the sleeps, oldest first. *)
Definition sleeps (h : list event) : list Z :=
  omap (λ e, match e with Sleep secs => Some secs | _ => None end) h.

(** The [(Filename, Bucket, Key)] of the uploads to the store. *)
Definition store_calls (h : list event) : list (string * string * string) :=
  omap (λ e, match e with S3UploadFile f b k _ => Some (f, b, k) | _ => None end) h.

(** The [Video] argument of the detection jobs started. *)
Definition jobs_started (h : list event) : list value :=
  omap (λ e, match e with StartFaceDetection v _ _ => Some v | _ => None end) h.

(** An event of the poller: a status request or a sleep. *)
Definition is_poll_event (e : event) : bool :=
  match e with
  | GetFaceDetection _ _ | Sleep _ => true
  | _ => false
  end.

(** One round of the loop for each [r] of [rs]: a status request answered
    [r], then a sleep of 5. *)
Definition rounds (job_id : value) (rs : list (gmap string value)) : list event :=
  rs ≫= λ r, [GetFaceDetection job_id (Returns r); Sleep 5].

(** The history the poller leaves behind when it saw the responses [rs],
    slept after each, and then saw [final]. *)
Definition polled (job_id : value) (rs : list (gmap string value))
    (final : gmap string value) : list event :=
  rounds job_id rs ++ [GetFaceDetection job_id (Returns final)].

(** The payload [poll_face_detection] builds from a SUCCEEDED response. *)
Definition detection_payload (final : gmap string value) : value :=
  VDict {[ "status" := VStr "SUCCEEDED";
           "video_metadata" := default (VDict ∅) (final !! "VideoMetadata");
           "faces" := default (VList []) (final !! "Faces");
           "next_token" := default (VStr "") (final !! "NextToken") ]}.

(** The status of a response is IN_PROGRESS. *)
Definition says_in_progress (d : gmap string value) : Prop :=
  d !! "JobStatus" = Some (VStr "IN_PROGRESS").

(** Polled from the history [h0] on, with a sleep of 5 after each answer,
    the service answers the status requests for [job_id] with [answers], in
    this order. *)
Definition answers_in_turn `{Services} (job_id : value) (h0 : list event)
    (answers : list (gmap string value)) : Prop :=
  ∀ (k : nat) (r : gmap string value),
    answers !! k = Some r →
    get_face_detection (h0 ++ rounds job_id (take k answers)) job_id = Returns r.

(* ================================================================== *)
(** * Stub collaborators, for running the handlers on concrete requests *)

(** A stand-in for werkzeug's [secure_filename] on ASCII names: slashes
    become blanks, blank-separated words are joined by [_], every
    character outside [A-Za-z0-9_.-] is dropped, and leading and trailing
    dots and underscores are stripped. *)
Definition is_blank (c : ascii) : bool :=
  let n := nat_of_ascii c in
  ((9 <=? n) && (n <=? 13) || (28 <=? n) && (n <=? 32))%nat.

Definition is_safe_char (c : ascii) : bool :=
  let n := nat_of_ascii c in
  ((48 <=? n) && (n <=? 57) || (65 <=? n) && (n <=? 90) || (97 <=? n) && (n <=? 122)
   || (n =? 95) || (n =? 46) || (n =? 45))%nat.

Definition is_dot_or_underscore (c : ascii) : bool :=
  Ascii.eqb c "." || Ascii.eqb c "_".

(** [ "_".join(s.split()) ], with [/] counted as a blank. *)
Fixpoint join_words (seen_word in_gap : bool) (s : list ascii) : list ascii :=
  match s with
  | [] => []
  | c :: s' =>
      if is_blank c || Ascii.eqb c "/" then join_words seen_word true s'
      else (if seen_word && in_gap then ["_"%char] else [])
             ++ c :: join_words true false s'
  end.

Fixpoint lstrip (p : ascii → bool) (s : list ascii) : list ascii :=
  match s with
  | c :: s' => if p c then lstrip p s' else s
  | [] => []
  end.

Definition strip (p : ascii → bool) (s : list ascii) : list ascii :=
  reverse (lstrip p (reverse (lstrip p s))).

Definition ascii_secure_filename (name : string) : string :=
  String.string_of_list_ascii
    (strip is_dot_or_underscore
       (List.filter is_safe_char
          (join_words false false (String.list_ascii_of_string name)))).

Definition stub_runtime : Runtime := {|
  BASE_DIR := "/srv/app";
  secure_filename := ascii_secure_filename;
  str_object := λ _, "<object>"
|}.

(** Every write, transcoding, upload and job submission succeeds; the
    transcoder answers [converted]; the status requests are answered from
    [script], one entry per request; the completion API answers [completion]. *)
Definition stub_services (converted : string) (script : list (gmap string value))
    (completion : reply ChatCompletion) : Services := {|
  file_save := λ _ _ _, Returns tt;
  convert_video_to_aws_rekognition := λ _ _, Returns converted;
  s3_upload_file := λ _ _ _ _, Returns tt;
  start_face_detection := λ _ _ _, Returns {[ "JobId" := VStr "job-1" ]};
  get_face_detection := λ h _,
    match script !! length (status_requests h) with
    | Some d => Returns d
    | None => Throws (ServiceError "no scripted response left")
    end;
  chat_completions_create := λ _ _ _ _, completion
|}.

Definition in_progress : gmap string value := {[ "JobStatus" := VStr "IN_PROGRESS" ]}.

Definition succeeded : gmap string value :=
  {[ "JobStatus" := VStr "SUCCEEDED";
     "VideoMetadata" := VDict {[ "Format" := VStr "QuickTime / MOV" ]};
     "Faces" := VList [VDict {[ "Timestamp" := VNum 0 ]}] ]}.

Definition failed (msg : option string) : gmap string value :=
  match msg with
  | Some m => {[ "JobStatus" := VStr "FAILED"; "StatusMessage" := VStr m ]}
  | None => {[ "JobStatus" := VStr "FAILED" ]}
  end.

Definition mp4_request : gmap string FileStorage :=
  {[ "file" := {| filename := "holiday clip.MP4"; stream := "..." |} ]}.

Definition failed_script : Services :=
  stub_services "/tmp/converted_clip.mp4"
    [in_progress; failed (Some "corrupt video")]
    (Throws (ServiceError "completion service unavailable")).

Definition succeeding_script : Services :=
  stub_services "/tmp/converted_clip.mp4"
    [in_progress; in_progress; succeeded]
    (Returns {| choices := [ {| message := {| content := Some "hi" |} |} ] |}).

(* ================================================================== *)
(** * The upload pipeline, stage by stage *)

(** The Rekognition [Video] argument for an object of the bucket. *)
Definition s3_video (key : string) : value :=
  VDict {[ "S3Object" := VDict {[ "Bucket" := VStr S3_BUCKET; "Name" := VStr key ]} ]}.

(** The five stages in the order of the pipeline, with no [except] clause:
    save the upload, transcode it, store the result under its basename,
    submit the job, poll it. *)
Definition upload_stages `{Runtime} `{Services} (fuel : nat) (file : FileStorage)
    : M value :=
  saved ← save_uploaded_file file UPLOAD_FOLDER;
  converted ← perform (λ h, convert_video_to_aws_rekognition h saved)
                      (ConvertVideo saved);
  perform (λ h, s3_upload_file h converted S3_BUCKET (posixpath.basename converted))
          (S3UploadFile converted S3_BUCKET (posixpath.basename converted));;
  started ← perform
      (λ h, start_face_detection h (s3_video (posixpath.basename converted)) "ALL")
      (StartFaceDetection (s3_video (posixpath.basename converted)) "ALL");
  job_id ← lift (dict_index started "JobId");
  poll_face_detection fuel job_id.

(** A request that passes the three checks of [upload_video]. *)
Definition valid_upload (files : gmap string FileStorage) (file : FileStorage) : Prop :=
  files !! "file" = Some file ∧
  filename file ≠ "" ∧
  allowed_file (filename file) = Ret true.


(* ================================================================== *)
(** * Where a saved file may land *)

(** What werkzeug promises of a sanitised name, as far as a path built
    from it is concerned: no separator in it, no dot in front. *)
Definition sanitized (name : string) : Prop :=
  Str.contains "/" name = false ∧ Str.startswith "." name = false.

(** [path] is [folder], one separator, and one component with no
    separator in it that is neither [.] nor [..]. (With the empty component
    the path is the folder's own name followed by the separator.) *)
Definition directly_inside (folder path : string) : Prop :=
  ∃ name : string,
    path = folder +:+ "/" +:+ name ∧
    Str.contains "/" name = false ∧
    name ≠ "." ∧ name ≠ "..".

(* ================================================================== *)
(** * More stub collaborators *)

(** The job never leaves IN_PROGRESS. *)
Definition stuck_services : Services := {|
  file_save := λ _ _ _, Returns tt;
  convert_video_to_aws_rekognition := λ _ _, Returns "/tmp/converted_clip.mp4";
  s3_upload_file := λ _ _ _ _, Returns tt;
  start_face_detection := λ _ _ _, Returns {[ "JobId" := VStr "job-1" ]};
  get_face_detection := λ _ _, Returns in_progress;
  chat_completions_create := λ _ _ _ _, Throws (ServiceError "unused")
|}.

(** The job submission answers without a [JobId]. *)
Definition no_job_id_services : Services := {|
  file_save := λ _ _ _, Returns tt;
  convert_video_to_aws_rekognition := λ _ _, Returns "/tmp/converted_clip.mp4";
  s3_upload_file := λ _ _ _ _, Returns tt;
  start_face_detection := λ _ _ _, Returns {[ "ResponseMetadata" := VDict ∅ ]};
  get_face_detection := λ _ _, Returns succeeded;
  chat_completions_create := λ _ _ _ _, Returns {| choices := [] |}
|}.

(** One IN_PROGRESS answer, then a response without [JobStatus]. *)
Definition malformed_script : Services :=
  stub_services "/tmp/converted_clip.mp4"
    [in_progress; {[ "StatusMessage" := VStr "internal error" ]}]
    (Returns {| choices := [ {| message := {| content := None |} |} ] |}).

(** A runtime whose [secure_filename] sanitises nothing. *)
Definition raw_runtime : Runtime := {|
  BASE_DIR := "/srv/app";
  secure_filename := λ name, name;
  str_object := λ _, "<object>"
|}.

(** The one message [gpt_api] sends for a prompt. *)
Definition user_message (user_input : value) : value :=
  VList [VDict {[ "role" := VStr "user"; "content" := user_input ]}].

(* ================================================================== *)
(** * Strings: splitting at the last separator, lower case *)

Section StringFacts.

Lemma append_String (c : ascii) (a b : string) :
  String c a +:+ b = String c (a +:+ b).
Proof. reflexivity. Qed.

Lemma contains_append (sep : ascii) (a b : string) :
  Str.contains sep (a +:+ b) = Str.contains sep a || Str.contains sep b.
Proof.
  induction a as [|c a IH]; simpl; [done|].
  rewrite IH. by rewrite orb_assoc.
Qed.

Lemma rpartition_None (sep : ascii) (s : string) :
  Str.rpartition sep s = None ↔ Str.contains sep s = false.
Proof.
  induction s as [|c s IH]; simpl; [done|].
  destruct (Str.rpartition sep s) as [[before after]|].
  - split; [done|]. intros [_ Hs]%orb_false_iff.
    apply IH in Hs. discriminate.
  - destruct IH as [IH _]. rewrite IH by done.
    destruct (Ascii.eqb c sep); simpl; split; done.
Qed.

(** What [rpartition] returns is a split at a separator with none after it. *)
Lemma rpartition_Some (sep : ascii) (s before after : string) :
  Str.rpartition sep s = Some (before, after) →
  s = before +:+ String sep after ∧ Str.contains sep after = false.
Proof.
  revert before; induction s as [|c s IH]; intros before; simpl; [done|].
  destruct (Str.rpartition sep s) as [[b a]|] eqn:E.
  - intros [= <- <-]. destruct (IH b eq_refl) as [-> Hno]. done.
  - destruct (Ascii.eqb c sep) eqn:Ec; [|done].
    intros [= <- <-]. apply Ascii.eqb_eq in Ec as ->.
    split; [done|]. by apply rpartition_None.
Qed.

(** And any such split is the one it returns. *)
Lemma rpartition_split (sep : ascii) (before after : string) :
  Str.contains sep after = false →
  Str.rpartition sep (before +:+ String sep after) = Some (before, after).
Proof.
  intros Hno. induction before as [|c b IH]; simpl.
  - apply rpartition_None in Hno as ->. by rewrite Ascii.eqb_refl.
  - by rewrite IH.
Qed.

Lemma lower_ascii_idemp (c : ascii) :
  Str.lower_ascii (Str.lower_ascii c) = Str.lower_ascii c.
Proof. destruct c as [[] [] [] [] [] [] [] []]; reflexivity. Qed.

Lemma lower_ascii_dot (c : ascii) :
  Ascii.eqb (Str.lower_ascii c) "." = Ascii.eqb c ".".
Proof. destruct c as [[] [] [] [] [] [] [] []]; reflexivity. Qed.

Lemma lower_idemp (s : string) : Str.lower (Str.lower s) = Str.lower s.
Proof.
  induction s as [|c s IH]; simpl; [done|].
  by rewrite lower_ascii_idemp, IH.
Qed.

Lemma contains_dot_lower (s : string) :
  Str.contains "." (Str.lower s) = Str.contains "." s.
Proof.
  induction s as [|c s IH]; simpl; [done|].
  by rewrite lower_ascii_dot, IH.
Qed.

(** Lower-casing commutes with the split at the last dot. *)
Lemma rpartition_dot_lower (s : string) :
  Str.rpartition "." (Str.lower s)
  = prod_map Str.lower Str.lower <$> Str.rpartition "." s.
Proof.
  induction s as [|c s IH]; simpl; [done|].
  rewrite IH, lower_ascii_dot.
  destruct (Str.rpartition "." s) as [[b a]|]; simpl; [done|].
  by destruct (Ascii.eqb c ".").
Qed.

End StringFacts.

(* ================================================================== *)
(** * allowed_file *)

(** With a dot in the name, the verdict is the membership test on the
    lower-cased text after the last dot; the index never fails. *)
Lemma allowed_file_with_dot (stem ext : string) :
  Str.contains "." ext = false →
  allowed_file (stem +:+ String "." ext)
  = Ret (bool_decide (Str.lower ext ∈ ALLOWED_EXTENSIONS)).
Proof.
  intros Hno. unfold allowed_file, Str.rsplit1.
  rewrite contains_append. simpl. rewrite orb_true_r.
  by rewrite rpartition_split.
Qed.

Lemma allowed_file_without_dot (filename : string) :
  Str.contains "." filename = false → allowed_file filename = Ret false.
Proof. intros Hno. unfold allowed_file. by rewrite Hno. Qed.

Lemma allowed_file_lower (filename : string) :
  allowed_file (Str.lower filename) = allowed_file filename.
Proof.
  unfold allowed_file, Str.rsplit1.
  rewrite contains_dot_lower, rpartition_dot_lower.
  destruct (Str.contains "." filename); [|done].
  destruct (Str.rpartition "." filename) as [[b a]|]; simpl; [|done].
  by rewrite lower_idemp.
Qed.

(** C3. [allowed_file] always returns; it returns true exactly for the
    names that split at a dot into a stem and a dot-free suffix whose
    lower-case form is one of mp4, mov, avi. A name without a dot is
    rejected, and two names that differ only in the case of their letters
    get the same verdict. *)
Theorem allowed_file_spec (filename : string) :
  (∃ b : bool, allowed_file filename = Ret b ∧
               (b = true ↔ has_allowed_suffix filename)) ∧
  (Str.contains "." filename = false → allowed_file filename = Ret false) ∧
  (∀ other : string, Str.lower other = Str.lower filename →
                     allowed_file other = allowed_file filename).
Proof.
  split; [|split].
  - destruct (Str.rpartition "." filename) as [[stem ext]|] eqn:E.
    + apply rpartition_Some in E as [-> Hno].
      eexists. split; [by apply allowed_file_with_dot|].
      rewrite bool_decide_eq_true. split.
      * intros Hin. by exists stem, ext.
      * intros (stem' & ext' & Heq & Hno' & Hin).
        change ("." +:+ ext') with (String "." ext') in Heq.
        assert (Some (stem, ext) = Some (stem', ext')) as [= -> ->]; [|done].
        rewrite <- (rpartition_split "." stem ext Hno).
        rewrite Heq. by apply rpartition_split.
    + apply rpartition_None in E.
      exists false. split; [by apply allowed_file_without_dot|].
      split; [done|].
      intros (stem & ext & -> & _ & _).
      rewrite contains_append in E. simpl in E.
      by rewrite orb_true_r in E.
  - apply allowed_file_without_dot.
  - intros other Heq.
    by rewrite <- (allowed_file_lower other), Heq, allowed_file_lower.
Qed.

Example allowed_file_examples :
  allowed_file "holiday clip.MP4" = Ret true ∧
  allowed_file "a.b.mov" = Ret true ∧
  allowed_file ".avi" = Ret true ∧
  allowed_file "mp4" = Ret false ∧
  allowed_file "clip.txt" = Ret false ∧
  allowed_file "clip.mp4." = Ret false.
Proof. repeat split; reflexivity. Qed.

(* ================================================================== *)
(** * Reading a history: facts *)

Lemma status_requests_app (h1 h2 : list event) :
  status_requests (h1 ++ h2) = status_requests h1 ++ status_requests h2.
Proof. apply omap_app. Qed.

Lemma sleeps_app (h1 h2 : list event) : sleeps (h1 ++ h2) = sleeps h1 ++ sleeps h2.
Proof. apply omap_app. Qed.

Lemma store_calls_app (h1 h2 : list event) :
  store_calls (h1 ++ h2) = store_calls h1 ++ store_calls h2.
Proof. apply omap_app. Qed.

Lemma jobs_started_app (h1 h2 : list event) :
  jobs_started (h1 ++ h2) = jobs_started h1 ++ jobs_started h2.
Proof. apply omap_app. Qed.

Lemma store_calls_poll_events (h : list event) :
  forallb is_poll_event h = true → store_calls h = [].
Proof.
  induction h as [|e h IH]; [done|].
  simpl. intros [He Hh]%andb_true_iff.
  destruct e; try discriminate; by apply IH.
Qed.

Lemma jobs_started_poll_events (h : list event) :
  forallb is_poll_event h = true → jobs_started h = [].
Proof.
  induction h as [|e h IH]; [done|].
  simpl. intros [He Hh]%andb_true_iff.
  destruct e; try discriminate; by apply IH.
Qed.

Lemma rounds_requests (job_id : value) (rs : list (gmap string value)) :
  status_requests (rounds job_id rs) = (λ r, (job_id, Returns r)) <$> rs.
Proof. induction rs as [|r rs IH]; [done|]. simpl. by f_equal. Qed.

Lemma rounds_sleeps (job_id : value) (rs : list (gmap string value)) :
  sleeps (rounds job_id rs) = replicate (length rs) 5%Z.
Proof. induction rs as [|r rs IH]; [done|]. simpl. by f_equal. Qed.

Lemma polled_requests (job_id : value) (rs : list (gmap string value))
    (final : gmap string value) :
  status_requests (polled job_id rs final)
  = ((λ r, (job_id, Returns r)) <$> rs) ++ [(job_id, Returns final)].
Proof.
  unfold polled. by rewrite status_requests_app, rounds_requests.
Qed.

Lemma polled_sleeps (job_id : value) (rs : list (gmap string value))
    (final : gmap string value) :
  sleeps (polled job_id rs final) = replicate (length rs) 5%Z.
Proof.
  unfold polled. rewrite sleeps_app, rounds_sleeps. simpl.
  by rewrite app_nil_r.
Qed.

Lemma eq_str_true (v : value) (lit : string) : eq_str v lit = true ↔ v = VStr lit.
Proof.
  destruct v; simpl; try (split; [discriminate|by intros [=]]).
  rewrite String.eqb_eq. split; [by intros ->|by intros [= ->]].
Qed.

Lemma eq_str_false (v : value) (lit : string) : eq_str v lit = false ↔ v ≠ VStr lit.
Proof. rewrite <- eq_str_true. by destruct (eq_str v lit). Qed.

(* ================================================================== *)
(** * poll_face_detection *)

Section Poller.
Context `{Services}.

(** One turn of the loop, by what the service answers. *)
Lemma poll_face_detection_turn (fuel : nat) (job_id : value) (h : list event) :
  poll_face_detection (S fuel) job_id h =
  let r := get_face_detection h job_id in
  let h' := h ++ [GetFaceDetection job_id r] in
  match r with
  | Throws e => (Raise e, h')
  | Returns d =>
      match d !! "JobStatus" with
      | None => (Raise (KeyError "JobStatus"), h')
      | Some status =>
          if eq_str status "SUCCEEDED" then (Ret (detection_payload d), h')
          else if eq_str status "IN_PROGRESS" then
            poll_face_detection fuel job_id (h' ++ [Sleep 5])
          else
            (Raise (Exception
                      (default (VStr "Face detection failed") (d !! "StatusMessage"))),
             h')
      end
  end.
Proof.
  simpl. unfold mbind, M_bind, perform at 1. simpl.
  destruct (get_face_detection h job_id) as [d|e]; simpl; [|done].
  unfold lift, dict_index. destruct (d !! "JobStatus") as [status|]; [|done].
  destruct (eq_str status "SUCCEEDED"); [done|].
  destruct (eq_str status "IN_PROGRESS"); done.
Qed.

Lemma poll_face_detection_succeeded fuel job_id h (d : gmap string value) :
  get_face_detection h job_id = Returns d →
  d !! "JobStatus" = Some (VStr "SUCCEEDED") →
  poll_face_detection (S fuel) job_id h
  = (Ret (detection_payload d), h ++ [GetFaceDetection job_id (Returns d)]).
Proof. intros Hget Hst. rewrite poll_face_detection_turn, Hget. simpl. by rewrite Hst. Qed.

Lemma poll_face_detection_in_progress fuel job_id h (d : gmap string value) :
  get_face_detection h job_id = Returns d →
  d !! "JobStatus" = Some (VStr "IN_PROGRESS") →
  poll_face_detection (S fuel) job_id h
  = poll_face_detection fuel job_id
      (h ++ [GetFaceDetection job_id (Returns d); Sleep 5]).
Proof.
  intros Hget Hst. rewrite poll_face_detection_turn, Hget. simpl. rewrite Hst.
  simpl. by rewrite <- app_assoc.
Qed.

Lemma poll_face_detection_other fuel job_id h (d : gmap string value) status :
  get_face_detection h job_id = Returns d →
  d !! "JobStatus" = Some status →
  status ≠ VStr "SUCCEEDED" → status ≠ VStr "IN_PROGRESS" →
  poll_face_detection (S fuel) job_id h
  = (Raise (Exception (default (VStr "Face detection failed") (d !! "StatusMessage"))),
     h ++ [GetFaceDetection job_id (Returns d)]).
Proof.
  intros Hget Hst Hs Hp. rewrite poll_face_detection_turn, Hget. simpl. rewrite Hst.
  apply eq_str_false in Hs as ->. by apply eq_str_false in Hp as ->.
Qed.

(** While the service says IN_PROGRESS the poller asks, sleeps 5, and asks
    again: the rounds [rs] cost one unit of fuel each and are what is added
    to the history. *)
Lemma poll_face_detection_rounds (rs rest : list (gmap string value)) (fuel : nat)
    (job_id : value) (h0 : list event) :
  answers_in_turn job_id h0 (rs ++ rest) →
  Forall says_in_progress rs →
  poll_face_detection (length rs + fuel) job_id h0
  = poll_face_detection fuel job_id (h0 ++ rounds job_id rs).
Proof.
  revert h0. induction rs as [|r rs IH]; intros h0 Hturn Hall.
  - simpl. by rewrite app_nil_r.
  - apply Forall_cons in Hall as [Hr Hall].
    pose proof (Hturn 0 r eq_refl) as Hget. simpl in Hget. rewrite app_nil_r in Hget.
    simpl length. change (S (length rs) + fuel) with (S (length rs + fuel)).
    rewrite (poll_face_detection_in_progress _ _ _ r Hget Hr).
    rewrite IH; [|intros k r' Hk|done].
    + simpl. by rewrite <- app_assoc.
    + rewrite <- app_assoc. apply (Hturn (S k) r' Hk).
Qed.

(** After the rounds [rs], the service's next answer is asked for at the
    history [h0 ++ rounds job_id rs]. *)
Lemma answers_in_turn_last (rs : list (gmap string value)) (final : gmap string value)
    (job_id : value) (h0 : list event) :
  answers_in_turn job_id h0 (rs ++ [final]) →
  get_face_detection (h0 ++ rounds job_id rs) job_id = Returns final.
Proof.
  intros Hturn. specialize (Hturn (length rs) final).
  rewrite take_app_length in Hturn. apply Hturn.
  by rewrite lookup_app_r, Nat.sub_diag.
Qed.

End Poller.

Section PollerRuns.
Context `{Services}.

(** Whatever happens, the poller only adds status requests and sleeps. *)
Lemma poll_face_detection_history (fuel : nat) (job_id : value) (h : list event) :
  ∃ new : list event,
    (poll_face_detection fuel job_id h).2 = h ++ new ∧
    forallb is_poll_event new = true.
Proof.
  revert h. induction fuel as [|fuel IH]; intros h.
  - exists []. simpl. by rewrite app_nil_r.
  - rewrite poll_face_detection_turn. cbv zeta.
    destruct (get_face_detection h job_id) as [d|e];
      [|by eexists [_]].
    destruct (d !! "JobStatus") as [status|]; [|by eexists [_]].
    destruct (eq_str status "SUCCEEDED"); [by eexists [_]|].
    destruct (eq_str status "IN_PROGRESS"); [|by eexists [_]].
    destruct (IH ((h ++ [GetFaceDetection job_id (Returns d)]) ++ [Sleep 5]))
      as (new & -> & Hnew).
    exists (GetFaceDetection job_id (Returns d) :: Sleep 5 :: new).
    split; [by rewrite <- !app_assoc|done].
Qed.

(** A normal return comes from a SUCCEEDED answer, the last event of the
    history, and is the payload built from it. *)
Lemma poll_face_detection_returns fuel job_id h (v : value) (h' : list event) :
  poll_face_detection fuel job_id h = (Ret v, h') →
  ∃ final : gmap string value,
    last h' = Some (GetFaceDetection job_id (Returns final)) ∧
    final !! "JobStatus" = Some (VStr "SUCCEEDED") ∧
    v = detection_payload final.
Proof.
  revert h. induction fuel as [|fuel IH]; intros h; [done|].
  rewrite poll_face_detection_turn. cbv zeta.
  destruct (get_face_detection h job_id) as [d|e]; [|done].
  destruct (d !! "JobStatus") as [status|] eqn:Hst; [|done].
  destruct (eq_str status "SUCCEEDED") eqn:Hs.
  - intros [= <- <-]. exists d. rewrite last_snoc.
    apply eq_str_true in Hs as ->. done.
  - destruct (eq_str status "IN_PROGRESS"); [apply IH|done].
Qed.

End PollerRuns.

Lemma detection_payload_keys (final : gmap string value) :
  ∃ d : gmap string value,
    detection_payload final = VDict d ∧
    dom d = {[ "status"; "video_metadata"; "faces"; "next_token" ]} ∧
    d !! "status" = Some (VStr "SUCCEEDED") ∧
    d !! "video_metadata" = Some (default (VDict ∅) (final !! "VideoMetadata")) ∧
    d !! "faces" = Some (default (VList []) (final !! "Faces")) ∧
    d !! "next_token" = Some (default (VStr "") (final !! "NextToken")).
Proof.
  eexists. split; [reflexivity|]. split; [|by repeat split].
  rewrite !dom_insert_L, dom_singleton_L. set_solver.
Qed.

(** C1. If the service answers the first [n] status requests with
    responses [rs] whose status is IN_PROGRESS, and request [n + 1] with a
    response [final] whose status is SUCCEEDED, then the poller (given more
    than [n] turns) returns the payload built from [final]. What it added
    to the history is one status request and one sleep of 5 for each of
    [rs], then the last request, with no sleep after it: [n + 1] status
    requests and [n] sleeps of 5 in all. *)
Theorem poll_face_detection_scripted `{Services} (n fuel : nat) (job_id : value)
    (h0 : list event) (rs : list (gmap string value)) (final : gmap string value) :
  length rs = n →
  answers_in_turn job_id h0 (rs ++ [final]) →
  Forall says_in_progress rs →
  final !! "JobStatus" = Some (VStr "SUCCEEDED") →
  n < fuel →
  poll_face_detection fuel job_id h0
  = (Ret (detection_payload final), h0 ++ polled job_id rs final) ∧
  length (status_requests (polled job_id rs final)) = n + 1 ∧
  sleeps (polled job_id rs final) = replicate n 5%Z.
Proof.
  intros Hlen Hturn Hall Hfinal Hfuel. split; [|split].
  - replace fuel with (length rs + S (fuel - S n)) by lia.
    rewrite (poll_face_detection_rounds rs [final]) by done.
    rewrite (poll_face_detection_succeeded _ _ _ final);
      [|by apply answers_in_turn_last|done].
    unfold polled. by rewrite app_assoc.
  - rewrite polled_requests, length_app, length_fmap. simpl. lia.
  - by rewrite polled_sleeps, Hlen.
Qed.

(** C2. If, after any number [n] of IN_PROGRESS answers, the service answers
    [d] with a status that is neither SUCCEEDED nor IN_PROGRESS, the poller
    makes no further call (the request answered [d] is the last event) and
    raises an exception whose message is the service's StatusMessage when
    there is one and "Face detection failed" when there is none. *)
Theorem poll_face_detection_failed `{Runtime} `{Services} (n fuel : nat)
    (job_id : value) (h0 : list event) (rs : list (gmap string value))
    (d : gmap string value) (status : value) :
  length rs = n →
  answers_in_turn job_id h0 (rs ++ [d]) →
  Forall says_in_progress rs →
  d !! "JobStatus" = Some status →
  status ≠ VStr "SUCCEEDED" → status ≠ VStr "IN_PROGRESS" →
  n < fuel →
  ∃ e : exn,
    poll_face_detection fuel job_id h0 = (Raise e, h0 ++ polled job_id rs d) ∧
    (∀ m : string, d !! "StatusMessage" = Some (VStr m) → str_exn e = m) ∧
    (d !! "StatusMessage" = None → str_exn e = "Face detection failed").
Proof.
  intros Hlen Hturn Hall Hst Hs Hp Hfuel.
  exists (Exception (default (VStr "Face detection failed") (d !! "StatusMessage"))).
  split; [|split].
  - replace fuel with (length rs + S (fuel - S n)) by lia.
    rewrite (poll_face_detection_rounds rs [d]) by done.
    rewrite (poll_face_detection_other _ _ _ d status);
      [|by apply answers_in_turn_last|done..].
    unfold polled. by rewrite app_assoc.
  - by intros m ->.
  - by intros ->.
Qed.

(** C9. When the poller returns, the last event of the history is a status
    request answered with some [final], and the result is a dict with
    exactly the keys status, video_metadata, faces, next_token: status is
    "SUCCEEDED", and the other three are VideoMetadata, Faces, NextToken of
    [final], or {}, [], "" where [final] lacks the field. *)
Theorem poll_face_detection_payload `{Services} (fuel : nat) (job_id : value)
    (h h' : list event) (v : value) :
  poll_face_detection fuel job_id h = (Ret v, h') →
  ∃ final d : gmap string value,
    last h' = Some (GetFaceDetection job_id (Returns final)) ∧
    v = VDict d ∧
    dom d = {[ "status"; "video_metadata"; "faces"; "next_token" ]} ∧
    d !! "status" = Some (VStr "SUCCEEDED") ∧
    d !! "video_metadata" = Some (default (VDict ∅) (final !! "VideoMetadata")) ∧
    d !! "faces" = Some (default (VList []) (final !! "Faces")) ∧
    d !! "next_token" = Some (default (VStr "") (final !! "NextToken")).
Proof.
  intros Hrun.
  destruct (poll_face_detection_returns _ _ _ _ _ Hrun) as (final & Hlast & _ & ->).
  destruct (detection_payload_keys final) as (d & Hd & Hkeys).
  by exists final, d.
Qed.

Lemma poll_face_detection_scripted_witness :
  @poll_face_detection succeeding_script 3 (VStr "job-1") []
  = (Ret (detection_payload succeeded),
     [] ++ polled (VStr "job-1") [in_progress; in_progress] succeeded) ∧
  length (status_requests (polled (VStr "job-1") [in_progress; in_progress] succeeded))
  = 2 + 1 ∧
  sleeps (polled (VStr "job-1") [in_progress; in_progress] succeeded)
  = replicate 2 5%Z.
Proof.
  apply (@poll_face_detection_scripted succeeding_script 2 3 (VStr "job-1") []
           [in_progress; in_progress] succeeded).
  - reflexivity.
  - intros [|[|[|k]]] r [= <-]; reflexivity.
  - repeat constructor.
  - reflexivity.
  - lia.
Defined.

Lemma poll_face_detection_failed_witness :
  ∃ e : exn,
    @poll_face_detection failed_script 2 (VStr "job-1") []
    = (Raise e,
       [] ++ polled (VStr "job-1") [in_progress] (failed (Some "corrupt video"))) ∧
    (∀ m : string,
        failed (Some "corrupt video") !! "StatusMessage" = Some (VStr m) →
        @str_exn stub_runtime e = m) ∧
    (failed (Some "corrupt video") !! "StatusMessage" = None →
     @str_exn stub_runtime e = "Face detection failed").
Proof.
  apply (@poll_face_detection_failed stub_runtime failed_script 1 2 (VStr "job-1") []
           [in_progress] (failed (Some "corrupt video")) (VStr "FAILED")).
  - reflexivity.
  - intros [|[|k]] r [= <-]; reflexivity.
  - repeat constructor.
  - reflexivity.
  - discriminate.
  - discriminate.
  - lia.
Defined.

Lemma poll_face_detection_payload_witness :
  ∃ final d : gmap string value,
    last (polled (VStr "job-1") [in_progress; in_progress] succeeded)
    = Some (GetFaceDetection (VStr "job-1") (Returns final)) ∧
    detection_payload succeeded = VDict d ∧
    dom d = {[ "status"; "video_metadata"; "faces"; "next_token" ]} ∧
    d !! "status" = Some (VStr "SUCCEEDED") ∧
    d !! "video_metadata" = Some (default (VDict ∅) (final !! "VideoMetadata")) ∧
    d !! "faces" = Some (default (VList []) (final !! "Faces")) ∧
    d !! "next_token" = Some (default (VStr "") (final !! "NextToken")).
Proof.
  apply (@poll_face_detection_payload succeeding_script 3 (VStr "job-1") []).
  reflexivity.
Defined.

Example poller_failure_messages :
  (@poll_face_detection
     (stub_services "" [failed (Some "corrupt video")] (Throws (ServiceError ""))) 1
     (VStr "job-1") []).1
  = Raise (Exception (VStr "corrupt video")) ∧
  (@poll_face_detection
     (stub_services "" [failed None] (Throws (ServiceError ""))) 1
     (VStr "job-1") []).1
  = Raise (Exception (VStr "Face detection failed")) ∧
  (@poll_face_detection succeeding_script 2 (VStr "job-1") []).1 = Diverge.
Proof. repeat split; reflexivity. Qed.

(* ================================================================== *)
(** * The handlers *)

Section Handlers.
Context `{Runtime} `{Services}.

(** [process_face_detection] is submit-then-poll under one [except]. *)
Lemma process_face_detection_run (fuel : nat) (key : string) (h : list event) :
  process_face_detection fuel key h =
  let r := start_face_detection h (s3_video key) "ALL" in
  let h1 := h ++ [StartFaceDetection (s3_video key) "ALL" r] in
  match r with
  | Throws e => (Ret (error_body (str_exn e), 500%Z), h1)
  | Returns started =>
      match started !! "JobId" with
      | None => (Ret (error_body (str_exn (KeyError "JobId")), 500%Z), h1)
      | Some job_id =>
          match poll_face_detection fuel job_id h1 with
          | (Ret result, h2) => (Ret (result, 200%Z), h2)
          | (Raise e, h2) => (Ret (error_body (str_exn e), 500%Z), h2)
          | (Diverge, h2) => (Diverge, h2)
          end
      end
  end.
Proof.
  unfold process_face_detection, try_except, mbind, M_bind, perform, lift, dict_index.
  fold (s3_video key). cbv zeta.
  destruct (start_face_detection h (s3_video key) "ALL") as [started|e]; simpl; [|done].
  destruct (started !! "JobId") as [job_id|]; [|done].
  by destruct (poll_face_detection fuel job_id _) as [[result|e|] h2].
Qed.

(** The same for the stages without any [except]. *)
Lemma upload_stages_run (fuel : nat) (file : FileStorage) (h : list event) :
  upload_stages fuel file h =
  let saved := posixpath.join UPLOAD_FOLDER (secure_filename (filename file)) in
  let r1 := file_save h file saved in
  let h1 := h ++ [FileSave file saved r1] in
  match r1 with
  | Throws e => (Raise e, h1)
  | Returns _ =>
      let r2 := convert_video_to_aws_rekognition h1 saved in
      let h2 := h1 ++ [ConvertVideo saved r2] in
      match r2 with
      | Throws e => (Raise e, h2)
      | Returns converted =>
          let key := posixpath.basename converted in
          let r3 := s3_upload_file h2 converted S3_BUCKET key in
          let h3 := h2 ++ [S3UploadFile converted S3_BUCKET key r3] in
          match r3 with
          | Throws e => (Raise e, h3)
          | Returns _ =>
              let r4 := start_face_detection h3 (s3_video key) "ALL" in
              let h4 := h3 ++ [StartFaceDetection (s3_video key) "ALL" r4] in
              match r4 with
              | Throws e => (Raise e, h4)
              | Returns started =>
                  match started !! "JobId" with
                  | None => (Raise (KeyError "JobId"), h4)
                  | Some job_id => poll_face_detection fuel job_id h4
                  end
              end
          end
      end
  end.
Proof.
  unfold upload_stages, save_uploaded_file, mbind, M_bind, perform, lift, dict_index.
  cbv zeta.
  destruct (file_save h file _) as [[]|e]; simpl; [|done].
  destruct (convert_video_to_aws_rekognition _ _) as [converted|e]; simpl; [|done].
  destruct (s3_upload_file _ _ _ _) as [[]|e]; simpl; [|done].
  destruct (start_face_detection _ _ _) as [started|e]; simpl; [|done].
  destruct (started !! "JobId") as [job_id|]; [|done].
  by destruct (poll_face_detection fuel job_id _) as [[result|e|] h5].
Qed.

(** A valid upload is answered from the outcome of the stages: 200 with
    their result, 500 with the message of what they raised. *)
Lemma upload_video_stages (fuel : nat) (files : gmap string FileStorage)
    (file : FileStorage) (h : list event) :
  valid_upload files file →
  upload_video fuel files h =
  match upload_stages fuel file h with
  | (Ret result, h') => (Ret (result, 200%Z), h')
  | (Raise e, h') => (Ret (error_body (str_exn e), 500%Z), h')
  | (Diverge, h') => (Diverge, h')
  end.
Proof.
  intros (Hfile & Hname & Hallowed).
  rewrite upload_stages_run.
  unfold upload_video. rewrite Hfile.
  apply String.eqb_neq in Hname as ->.
  unfold mbind at 1, M_bind at 1, lift at 1. rewrite Hallowed. cbn [negb]. cbv beta iota.
  unfold try_except, save_uploaded_file, mbind, M_bind, perform. cbv zeta.
  destruct (file_save h file _) as [[]|e]; simpl; [|done].
  destruct (convert_video_to_aws_rekognition _ _) as [converted|e]; simpl; [|done].
  destruct (s3_upload_file _ _ _ _) as [[]|e]; simpl; [|done].
  rewrite process_face_detection_run. cbv zeta.
  destruct (start_face_detection _ _ _) as [started|e]; simpl; [|done].
  destruct (started !! "JobId") as [job_id|]; [|done].
  by destruct (poll_face_detection fuel job_id _) as [[result|e|] h5].
Qed.

End Handlers.

(* ================================================================== *)
(** * Paths *)

Lemma endswith_append (c : ascii) (a b : string) :
  b ≠ "" → Str.endswith c (a +:+ b) = Str.endswith c b.
Proof.
  intros Hb. induction a as [|x a IH]; [done|].
  rewrite append_String. simpl.
  destruct (a +:+ b) eqn:E; [|done].
  destruct a; [done|discriminate].
Qed.

Lemma startswith_contains (c : ascii) (s : string) :
  Str.contains c s = false → Str.startswith c s = false.
Proof. destruct s; simpl; [done|]. by intros [? _]%orb_false_iff. Qed.

Lemma UPLOAD_FOLDER_shape `{Runtime} :
  UPLOAD_FOLDER ≠ "" ∧ Str.endswith "/" UPLOAD_FOLDER = false.
Proof.
  unfold UPLOAD_FOLDER, posixpath.join. simpl Str.startswith. cbv iota.
  destruct (String.eqb BASE_DIR "" || Str.endswith "/" BASE_DIR).
  - split; [by destruct BASE_DIR|]. by rewrite endswith_append.
  - split; [by destruct BASE_DIR|]. by rewrite endswith_append.
Qed.

(** Joining the upload folder and a name with no separator in it puts one
    separator between the two. *)
Lemma join_UPLOAD_FOLDER `{Runtime} (name : string) :
  Str.contains "/" name = false →
  posixpath.join UPLOAD_FOLDER name = UPLOAD_FOLDER +:+ "/" +:+ name.
Proof.
  intros Hname. unfold posixpath.join.
  rewrite (startswith_contains _ _ Hname).
  destruct UPLOAD_FOLDER_shape as [Hne ->].
  by apply String.eqb_neq in Hne as ->.
Qed.

Lemma basename_append (folder name : string) :
  Str.contains "/" name = false →
  posixpath.basename (folder +:+ "/" +:+ name) = name.
Proof.
  intros Hname. unfold posixpath.basename.
  change ("/" +:+ name) with (String "/" name).
  by rewrite rpartition_split.
Qed.

Lemma save_uploaded_file_run `{Runtime} `{Services} (file : FileStorage)
    (folder : string) (h : list event) :
  save_uploaded_file file folder h =
  let path := posixpath.join folder (secure_filename (filename file)) in
  let r := file_save h file path in
  (match r with Returns _ => Ret path | Throws e => Raise e end,
   h ++ [FileSave file path r]).
Proof.
  unfold save_uploaded_file, mbind, M_bind, perform. cbv zeta.
  by destruct (file_save h file _) as [[]|e].
Qed.

(** C10. Whatever name the client sent, [save_uploaded_file] makes one
    call, the write to the join of the upload folder and the sanitised
    name, and returns that path when the write succeeds (it raises what the
    write raises otherwise). With a sanitised name that has no separator
    and no dot in front, as werkzeug promises, that path is the upload
    folder, one separator and the sanitised name: directly inside the
    folder, whatever separators or [..] the client's name held. *)
Theorem save_uploaded_file_inside `{Runtime} `{Services} (file : FileStorage)
    (h : list event) :
  sanitized (secure_filename (filename file)) →
  ∃ path : string,
    path = posixpath.join UPLOAD_FOLDER (secure_filename (filename file)) ∧
    save_uploaded_file file UPLOAD_FOLDER h
    = (match file_save h file path with Returns _ => Ret path | Throws e => Raise e end,
       h ++ [FileSave file path (file_save h file path)]) ∧
    directly_inside UPLOAD_FOLDER path ∧
    posixpath.basename path = secure_filename (filename file).
Proof.
  intros [Hsep Hdot].
  exists (posixpath.join UPLOAD_FOLDER (secure_filename (filename file))).
  split; [done|]. split; [apply save_uploaded_file_run|].
  rewrite (join_UPLOAD_FOLDER _ Hsep). split.
  - exists (secure_filename (filename file)). split; [done|]. split; [done|].
    split; intros Heq; by rewrite Heq in Hdot.
  - by apply basename_append.
Qed.

Lemma save_uploaded_file_inside_witness :
  ∃ path : string,
    path = posixpath.join (@UPLOAD_FOLDER stub_runtime) "etc_passwd" ∧
    @save_uploaded_file stub_runtime succeeding_script
      {| filename := "../../etc/passwd"; stream := "root" |}
      (@UPLOAD_FOLDER stub_runtime) []
    = (Ret path,
       [] ++ [FileSave {| filename := "../../etc/passwd"; stream := "root" |} path
                (Returns ())]) ∧
    directly_inside (@UPLOAD_FOLDER stub_runtime) path ∧
    posixpath.basename path = "etc_passwd".
Proof.
  apply (@save_uploaded_file_inside stub_runtime succeeding_script
           {| filename := "../../etc/passwd"; stream := "root" |} []).
  split; reflexivity.
Defined.

Example save_uploaded_file_example :
  @save_uploaded_file stub_runtime succeeding_script
    {| filename := "../../etc/passwd"; stream := "root" |}
    (@UPLOAD_FOLDER stub_runtime) []
  = (Ret "/srv/app/uploads/etc_passwd",
     [FileSave {| filename := "../../etc/passwd"; stream := "root" |}
        "/srv/app/uploads/etc_passwd" (Returns ())]).
Proof. reflexivity. Qed.

(* ================================================================== *)
(** * POST /upload *)

(** C4. A valid upload whose five stages all succeed: the write, the
    transcoder (answering [converted]), the store, the job submission
    (answering a [JobId]) and the poller (returning [payload]). The
    handler answers 200 with exactly [payload]; in what it added to the
    history the store was called once, with the basename of [converted] as
    key, and one job was started, on the object of that key. *)
Theorem upload_video_success `{Runtime} `{Services} (fuel : nat)
    (files : gmap string FileStorage) (file : FileStorage) (h0 h5 : list event)
    (converted : string) (started : gmap string value) (job_id payload : value) :
  let saved := posixpath.join UPLOAD_FOLDER (secure_filename (filename file)) in
  let key := posixpath.basename converted in
  let h1 := h0 ++ [FileSave file saved (Returns ())] in
  let h2 := h1 ++ [ConvertVideo saved (Returns converted)] in
  let h3 := h2 ++ [S3UploadFile converted S3_BUCKET key (Returns ())] in
  let h4 := h3 ++ [StartFaceDetection (s3_video key) "ALL" (Returns started)] in
  valid_upload files file →
  file_save h0 file saved = Returns () →
  convert_video_to_aws_rekognition h1 saved = Returns converted →
  s3_upload_file h2 converted S3_BUCKET key = Returns () →
  start_face_detection h3 (s3_video key) "ALL" = Returns started →
  started !! "JobId" = Some job_id →
  poll_face_detection fuel job_id h4 = (Ret payload, h5) →
  upload_video fuel files h0 = (Ret (jsonify payload, 200%Z), h5) ∧
  ∃ new : list event,
    h5 = h0 ++ new ∧
    store_calls new = [(converted, S3_BUCKET, key)] ∧
    jobs_started new = [s3_video key].
Proof.
  intros saved key h1 h2 h3 h4 Hvalid Hsave Hconvert Hstore Hstart Hjob Hpoll.
  split.
  - rewrite (upload_video_stages _ _ file) by done.
    rewrite upload_stages_run. cbv zeta.
    fold saved. rewrite Hsave. fold h1. rewrite Hconvert. fold key h2.
    rewrite Hstore. fold h3. rewrite Hstart. fold h4.
    by rewrite Hjob, Hpoll.
  - destruct (poll_face_detection_history fuel job_id h4) as (polls & Hh5 & Hpolls).
    rewrite Hpoll in Hh5. simpl in Hh5.
    exists ([FileSave file saved (Returns ()); ConvertVideo saved (Returns converted);
             S3UploadFile converted S3_BUCKET key (Returns ());
             StartFaceDetection (s3_video key) "ALL" (Returns started)] ++ polls).
    split; [|split].
    + rewrite Hh5. unfold h4, h3, h2, h1. by rewrite <- !app_assoc.
    + rewrite store_calls_app, (store_calls_poll_events polls) by done. done.
    + rewrite jobs_started_app, (jobs_started_poll_events polls) by done. done.
Qed.

Lemma upload_video_success_witness :
  @upload_video stub_runtime succeeding_script 3 mp4_request []
  = (Ret (jsonify (detection_payload succeeded), 200%Z),
     [FileSave {| filename := "holiday clip.MP4"; stream := "..." |}
        "/srv/app/uploads/holiday_clip.MP4" (Returns ());
      ConvertVideo "/srv/app/uploads/holiday_clip.MP4"
        (Returns "/tmp/converted_clip.mp4");
      S3UploadFile "/tmp/converted_clip.mp4" S3_BUCKET "converted_clip.mp4" (Returns ());
      StartFaceDetection (s3_video "converted_clip.mp4") "ALL"
        (Returns {[ "JobId" := VStr "job-1" ]})]
     ++ polled (VStr "job-1") [in_progress; in_progress] succeeded) ∧
  ∃ new : list event,
    [FileSave {| filename := "holiday clip.MP4"; stream := "..." |}
        "/srv/app/uploads/holiday_clip.MP4" (Returns ());
      ConvertVideo "/srv/app/uploads/holiday_clip.MP4"
        (Returns "/tmp/converted_clip.mp4");
      S3UploadFile "/tmp/converted_clip.mp4" S3_BUCKET "converted_clip.mp4" (Returns ());
      StartFaceDetection (s3_video "converted_clip.mp4") "ALL"
        (Returns {[ "JobId" := VStr "job-1" ]})]
     ++ polled (VStr "job-1") [in_progress; in_progress] succeeded = [] ++ new ∧
    store_calls new
    = [("/tmp/converted_clip.mp4", S3_BUCKET, "converted_clip.mp4")] ∧
    jobs_started new = [s3_video "converted_clip.mp4"].
Proof.
  apply (@upload_video_success stub_runtime succeeding_script 3 mp4_request
           {| filename := "holiday clip.MP4"; stream := "..." |} []
           _ "/tmp/converted_clip.mp4" {[ "JobId" := VStr "job-1" ]}
           (VStr "job-1") (detection_payload succeeded)).
  - repeat split. discriminate.
  - reflexivity.
  - reflexivity.
  - reflexivity.
  - reflexivity.
  - reflexivity.
  - reflexivity.
Defined.

(** C5. With no file part, with an empty filename, or with a name that
    [allowed_file] rejects, the handler answers 400 and the history is what
    it was: nothing was written, transcoded, stored or submitted. *)
Theorem upload_video_rejected `{Runtime} `{Services} (fuel : nat)
    (files : gmap string FileStorage) (h : list event) :
  (files !! "file" = None ∨
   ∃ file : FileStorage,
     files !! "file" = Some file ∧
     (filename file = "" ∨ allowed_file (filename file) = Ret false)) →
  ∃ body : value, upload_video fuel files h = (Ret (body, 400%Z), h).
Proof.
  unfold upload_video. intros [->|(file & -> & [->|Hrejected])].
  - by eexists.
  - by eexists.
  - destruct (String.eqb (filename file) ""); [by eexists|].
    unfold mbind, M_bind, lift. rewrite Hrejected. by eexists.
Qed.

Lemma upload_video_rejected_witness :
  ∃ body : value,
    @upload_video stub_runtime succeeding_script 3
      {[ "file" := {| filename := "clip.txt"; stream := "..." |} ]} []
    = (Ret (body, 400%Z), []).
Proof.
  apply (@upload_video_rejected stub_runtime succeeding_script 3
           {[ "file" := {| filename := "clip.txt"; stream := "..." |} ]} []).
  right. exists {| filename := "clip.txt"; stream := "..." |}.
  split; [reflexivity|]. right. reflexivity.
Defined.

Example rejected_upload_examples :
  @upload_video stub_runtime succeeding_script 3 ∅ []
  = (Ret (error_body "No file part", 400%Z), []) ∧
  @upload_video stub_runtime succeeding_script 3
    {[ "file" := {| filename := ""; stream := "..." |} ]} []
  = (Ret (error_body "No file selected", 400%Z), []) ∧
  @upload_video stub_runtime succeeding_script 3
    {[ "file" := {| filename := "clip.txt"; stream := "..." |} ]} []
  = (Ret (error_body "Invalid file type. Allowed types: mp4, mov, avi", 400%Z), []).
Proof. repeat split; reflexivity. Qed.

(** Stage by stage: whichever of the five is the first to raise, the
    answer is 500 with the message of that exception. *)
Lemma upload_video_each_stage `{Runtime} `{Services} (fuel : nat)
    (files : gmap string FileStorage) (file : FileStorage) (h : list event)
    (e : exn) :
  let saved := posixpath.join UPLOAD_FOLDER (secure_filename (filename file)) in
  let failure := Ret (error_body (str_exn e), 500%Z) in
  valid_upload files file →
  (* the local save *)
  (file_save h file saved = Throws e →
   upload_video fuel files h = (failure, h ++ [FileSave file saved (Throws e)])) ∧
  (file_save h file saved = Returns () →
   let h1 := h ++ [FileSave file saved (Returns ())] in
   (* the transcoder *)
   (convert_video_to_aws_rekognition h1 saved = Throws e →
    upload_video fuel files h = (failure, h1 ++ [ConvertVideo saved (Throws e)])) ∧
   ∀ converted : string,
     convert_video_to_aws_rekognition h1 saved = Returns converted →
     let key := posixpath.basename converted in
     let h2 := h1 ++ [ConvertVideo saved (Returns converted)] in
     (* the store *)
     (s3_upload_file h2 converted S3_BUCKET key = Throws e →
      upload_video fuel files h
      = (failure, h2 ++ [S3UploadFile converted S3_BUCKET key (Throws e)])) ∧
     (s3_upload_file h2 converted S3_BUCKET key = Returns () →
      let h3 := h2 ++ [S3UploadFile converted S3_BUCKET key (Returns ())] in
      (* the job submission *)
      (start_face_detection h3 (s3_video key) "ALL" = Throws e →
       upload_video fuel files h
       = (failure, h3 ++ [StartFaceDetection (s3_video key) "ALL" (Throws e)])) ∧
      ∀ (started : gmap string value) (job_id : value) (h5 : list event),
        start_face_detection h3 (s3_video key) "ALL" = Returns started →
        started !! "JobId" = Some job_id →
        (* the poller *)
        poll_face_detection fuel job_id
          (h3 ++ [StartFaceDetection (s3_video key) "ALL" (Returns started)])
        = (Raise e, h5) →
        upload_video fuel files h = (failure, h5))).
Proof.
  intros saved failure Hvalid.
  rewrite (upload_video_stages _ _ file) by done.
  rewrite upload_stages_run. cbv zeta. fold saved.
  split; [by intros ->|]. intros ->.
  split; [by intros ->|]. intros converted ->.
  split; [by intros ->|]. intros ->.
  split; [by intros ->|]. intros started job_id h5 -> -> ->. done.
Qed.

(** C8. For a valid upload, if the stages (save, transcode, store, submit,
    poll) raise [e], the handler itself does not raise: it answers 500 with
    body [{"error": str(e)}]. *)
Theorem upload_video_stage_failure `{Runtime} `{Services} (fuel : nat)
    (files : gmap string FileStorage) (file : FileStorage) (h h' : list event)
    (e : exn) :
  valid_upload files file →
  upload_stages fuel file h = (Raise e, h') →
  upload_video fuel files h
  = (Ret (jsonify (VDict {[ "error" := VStr (str_exn e) ]}), 500%Z), h').
Proof.
  intros Hvalid Hstages.
  by rewrite (upload_video_stages _ _ file), Hstages.
Qed.

Lemma upload_video_stage_failure_witness :
  @upload_video stub_runtime failed_script 3 mp4_request []
  = (Ret (jsonify (VDict {[ "error" := VStr "corrupt video" ]}), 500%Z),
     [FileSave {| filename := "holiday clip.MP4"; stream := "..." |}
        "/srv/app/uploads/holiday_clip.MP4" (Returns ());
      ConvertVideo "/srv/app/uploads/holiday_clip.MP4"
        (Returns "/tmp/converted_clip.mp4");
      S3UploadFile "/tmp/converted_clip.mp4" S3_BUCKET "converted_clip.mp4" (Returns ());
      StartFaceDetection (s3_video "converted_clip.mp4") "ALL"
        (Returns {[ "JobId" := VStr "job-1" ]})]
     ++ polled (VStr "job-1") [in_progress] (failed (Some "corrupt video"))).
Proof.
  apply (@upload_video_stage_failure stub_runtime failed_script 3 mp4_request
           {| filename := "holiday clip.MP4"; stream := "..." |} [] _
           (Exception (VStr "corrupt video"))).
  - repeat split. discriminate.
  - reflexivity.
Defined.

(* ================================================================== *)
(** * POST /gpt *)

Section Gpt.
Context `{Runtime} `{Services}.

(** The prompt is tested for truth: every falsy value is turned away
    before any call. *)
Lemma gpt_api_falsy (d : gmap string value) (h : list event) :
  truthy (dict_get d "input" (VStr "")) = false →
  gpt_api (VDict d) h = (Ret (jsonify (error_body "No input provided"), 400%Z), h).
Proof.
  intros Hfalsy. unfold gpt_api, mbind, M_bind, lift, get_method.
  by rewrite Hfalsy.
Qed.

(** A truthy prompt goes to the completion API as the one user message. *)
Lemma gpt_api_truthy (d : gmap string value) (h : list event) :
  truthy (dict_get d "input" (VStr "")) = true →
  gpt_api (VDict d) h =
  let messages :=
    VList [VDict {[ "role" := VStr "user";
                    "content" := dict_get d "input" (VStr "") ]}] in
  let r := chat_completions_create h "gpt-3.5-turbo" messages 150 in
  let h' := h ++ [ChatCompletionsCreate "gpt-3.5-turbo" messages 150 r] in
  match r with
  | Throws e => (Ret (error_body (str_exn e), 500%Z), h')
  | Returns completion =>
      match choices completion with
      | [] => (Ret (error_body "list index out of range", 500%Z), h')
      | first :: _ =>
          (Ret (VDict {[ "response" := from_option VStr VNull (content (message first)) ]},
                200%Z), h')
      end
  end.
Proof.
  intros Htruthy. unfold gpt_api, mbind at 1, M_bind at 1, lift at 1, get_method.
  rewrite Htruthy. cbn [negb]. cbv beta iota zeta.
  unfold try_except, mbind, M_bind, perform, lift, list_index.
  destruct (chat_completions_create h _ _ _) as [completion|e]; simpl; [|done].
  by destruct (choices completion).
Qed.

End Gpt.

(** C6. A body without "input", or with "input" the empty string (or
    null), is answered 400 with an error body, and the history is what it
    was: the completion API was not called. *)
Theorem gpt_api_no_input `{Runtime} `{Services} (d : gmap string value)
    (h : list event) :
  d !! "input" = None ∨ d !! "input" = Some (VStr "") ∨ d !! "input" = Some VNull →
  gpt_api (VDict d) h
  = (Ret (jsonify (VDict {[ "error" := VStr "No input provided" ]}), 400%Z), h).
Proof.
  intros Hinput. apply gpt_api_falsy. unfold dict_get.
  by destruct Hinput as [-> | [-> | ->]].
Qed.

Lemma gpt_api_no_input_witness :
  @gpt_api stub_runtime succeeding_script (VDict {[ "input" := VStr "" ]}) []
  = (Ret (jsonify (VDict {[ "error" := VStr "No input provided" ]}), 400%Z), []).
Proof.
  apply (@gpt_api_no_input stub_runtime succeeding_script {[ "input" := VStr "" ]} []).
  right. left. reflexivity.
Defined.

(** C7. A non-empty "input" string is sent to the completion API (model
    gpt-3.5-turbo, at most 150 tokens); when the API answers with at least
    one completion and the first one has text [t], the handler answers 200
    with body [{"response": t}]. *)
Theorem gpt_api_response `{Runtime} `{Services} (d : gmap string value)
    (h : list event) (prompt t : string) (completion : ChatCompletion)
    (first : Choice) (others : list Choice) :
  let messages := VList [VDict {[ "role" := VStr "user"; "content" := VStr prompt ]}] in
  d !! "input" = Some (VStr prompt) →
  prompt ≠ "" →
  chat_completions_create h "gpt-3.5-turbo" messages 150 = Returns completion →
  choices completion = first :: others →
  content (message first) = Some t →
  gpt_api (VDict d) h
  = (Ret (jsonify (VDict {[ "response" := VStr t ]}), 200%Z),
     h ++ [ChatCompletionsCreate "gpt-3.5-turbo" messages 150 (Returns completion)]).
Proof.
  intros messages Hinput Hprompt Hcall Hchoices Htext.
  assert (dict_get d "input" (VStr "") = VStr prompt) as Hget.
  { unfold dict_get. by rewrite Hinput. }
  rewrite gpt_api_truthy.
  - cbv zeta. rewrite Hget. fold messages. by rewrite Hcall, Hchoices, Htext.
  - rewrite Hget. simpl. by apply String.eqb_neq in Hprompt as ->.
Qed.

Lemma gpt_api_response_witness :
  @gpt_api stub_runtime succeeding_script (VDict {[ "input" := VStr "hello" ]}) []
  = (Ret (jsonify (VDict {[ "response" := VStr "hi" ]}), 200%Z),
     [] ++ [ChatCompletionsCreate "gpt-3.5-turbo"
              (VList [VDict {[ "role" := VStr "user"; "content" := VStr "hello" ]}]) 150
              (Returns {| choices := [ {| message := {| content := Some "hi" |} |} ] |})]).
Proof.
  apply (@gpt_api_response stub_runtime succeeding_script
           {[ "input" := VStr "hello" ]} [] "hello" "hi"
           {| choices := [ {| message := {| content := Some "hi" |} |} ] |}
           {| message := {| content := Some "hi" |} |} []).
  - reflexivity.
  - discriminate.
  - reflexivity.
  - reflexivity.
  - reflexivity.
Defined.

Example gpt_api_examples :
  (@gpt_api stub_runtime succeeding_script (VDict ∅) []).1
  = Ret (error_body "No input provided", 400%Z) ∧
  (@gpt_api stub_runtime succeeding_script (VDict {[ "input" := VNum 0 ]}) []).1
  = Ret (error_body "No input provided", 400%Z) ∧
  (@gpt_api stub_runtime failed_script (VDict {[ "input" := VStr "hello" ]}) []).1
  = Ret (error_body "completion service unavailable", 500%Z) ∧
  (@gpt_api stub_runtime succeeding_script VNull []).1
  = Raise (AttributeError "'NoneType' object has no attribute 'get'").
Proof. repeat split; reflexivity. Qed.

(* ================================================================== *)
(** * The stand-in for secure_filename keeps werkzeug's promise *)

Lemma lstrip_suffix (p : ascii → bool) (s : list ascii) :
  ∃ dropped : list ascii, s = dropped ++ lstrip p s.
Proof.
  induction s as [|c s [dropped IH]]; [by exists []|].
  simpl. destruct (p c); [|by exists []].
  exists (c :: dropped). simpl. by f_equal.
Qed.

Lemma lstrip_head (p : ascii → bool) (s : list ascii) :
  match lstrip p s with
  | c :: _ => p c = false
  | [] => True
  end.
Proof.
  induction s as [|c s IH]; [done|].
  simpl. by destruct (p c) eqn:E.
Qed.

(** Stripping keeps a segment of the list, and the segment does not begin
    with a stripped character. *)
Lemma strip_segment (p : ascii → bool) (s : list ascii) :
  (∃ front back : list ascii, s = front ++ strip p s ++ back) ∧
  match strip p s with
  | c :: _ => p c = false
  | [] => True
  end.
Proof.
  unfold strip.
  destruct (lstrip_suffix p s) as [front Hfront].
  destruct (lstrip_suffix p (reverse (lstrip p s))) as [back Hback].
  apply (f_equal reverse) in Hback.
  rewrite reverse_involutive, reverse_app in Hback.
  split.
  - exists front, (reverse back). by rewrite <- Hback.
  - pose proof (lstrip_head p s) as Hhead. rewrite Hback in Hhead.
    by destruct (reverse (lstrip p (reverse (lstrip p s)))).
Qed.

Lemma contains_string_of_list (sep : ascii) (s : list ascii) :
  Str.contains sep (String.string_of_list_ascii s) = false ↔ sep ∉ s.
Proof.
  induction s as [|c s IH]; simpl.
  - split; [intros _; apply not_elem_of_nil|done].
  - rewrite orb_false_iff, IH, not_elem_of_cons, Ascii.eqb_neq.
    split; intros [Hc Hs]; (split; [congruence|done]).
Qed.

Lemma ascii_secure_filename_sanitized (name : string) :
  sanitized (ascii_secure_filename name).
Proof.
  unfold sanitized, ascii_secure_filename.
  set (kept := List.filter is_safe_char _).
  destruct (strip_segment is_dot_or_underscore kept) as [(front & back & Hseg) Hhead].
  split.
  - apply contains_string_of_list. intros Hin.
    assert ("/"%char ∈ kept) as Hkept.
    { rewrite Hseg. rewrite !elem_of_app. auto. }
    apply list_elem_of_In, filter_In in Hkept as [_ Hsafe]. discriminate.
  - destruct (strip is_dot_or_underscore kept) as [|c rest]; [done|].
    simpl. apply orb_false_iff in Hhead as [Hdot _]. done.
Qed.

(** With that stand-in, every name lands directly inside the upload
    folder. *)
Corollary stub_saves_inside_folder (file : FileStorage) :
  directly_inside (@UPLOAD_FOLDER stub_runtime)
    (posixpath.join (@UPLOAD_FOLDER stub_runtime)
       (ascii_secure_filename (filename file))).
Proof.
  destruct (ascii_secure_filename_sanitized (filename file)) as [Hsep Hdot].
  exists (ascii_secure_filename (filename file)).
  split; [by rewrite (@join_UPLOAD_FOLDER stub_runtime)|].
  split; [done|]. split; intros Heq; by rewrite Heq in Hdot.
Qed.

Example ascii_secure_filename_examples :
  ascii_secure_filename "../../etc/passwd" = "etc_passwd" ∧
  ascii_secure_filename "holiday clip.MP4" = "holiday_clip.MP4" ∧
  ascii_secure_filename ".." = "".
Proof. repeat split; reflexivity. Qed.

(* ================================================================== *)
(** * More on the poller *)

Section PollerEdges.
Context `{Services}.

(** The history in which the poller asks for answer number [k + 1]. *)
Lemma answers_in_turn_cons (job_id : value) (h : list event)
    (d : gmap string value) (rs : list (gmap string value)) :
  get_face_detection h job_id = Returns d →
  answers_in_turn job_id (h ++ [GetFaceDetection job_id (Returns d); Sleep 5]) rs →
  answers_in_turn job_id h (d :: rs).
Proof.
  intros Hget Hturn [|k] r Hk.
  - injection Hk as <-. simpl. by rewrite app_nil_r.
  - specialize (Hturn k r Hk). by rewrite <- app_assoc in Hturn.
Qed.

(** The shape of what the poller adds to the history, by induction on
    the fuel. *)
Lemma poll_face_detection_shape (fuel : nat) (job_id : value) (h : list event) :
  ∃ rs : list (gmap string value),
    Forall says_in_progress rs ∧
    answers_in_turn job_id h rs ∧
    ((length rs = fuel ∧
      poll_face_detection fuel job_id h = (Diverge, h ++ rounds job_id rs)) ∨
     (length rs < fuel ∧
      (poll_face_detection fuel job_id h).1 ≠ Diverge ∧
      (poll_face_detection fuel job_id h).2
      = h ++ rounds job_id rs
          ++ [GetFaceDetection job_id
                (get_face_detection (h ++ rounds job_id rs) job_id)] ∧
      ∀ d : gmap string value,
        get_face_detection (h ++ rounds job_id rs) job_id = Returns d →
        ¬ says_in_progress d)).
Proof.
  revert h. induction fuel as [|fuel IH]; intros h.
  { exists []. split; [done|]. split; [by intros k r|].
    left. simpl. by rewrite app_nil_r. }
  destruct (get_face_detection h job_id) as [d|e] eqn:Hget.
  - destruct (d !! "JobStatus") as [status|] eqn:Hst.
    + destruct (eq_str status "IN_PROGRESS") eqn:Hp.
      * apply eq_str_true in Hp as ->.
        rewrite (poll_face_detection_in_progress _ _ _ d Hget Hst).
        destruct (IH (h ++ [GetFaceDetection job_id (Returns d); Sleep 5]))
          as (rs & Hall & Hturn & Hcases).
        exists (d :: rs). split; [by constructor|].
        split; [by apply answers_in_turn_cons|].
        simpl length. simpl rounds. fold (rounds job_id rs).
        rewrite <- !app_assoc in Hcases. simpl app in Hcases.
        destruct Hcases as [[Hlen Hrun]|(Hlen & Hout & Hhist & Hlast)].
        -- left. split; [lia|done].
        -- right. split; [lia|]. by split; [|split].
      * exists []. split; [done|]. split; [by intros k r|].
        right. simpl rounds. rewrite app_nil_r, Hget.
        split; [simpl; lia|].
        rewrite poll_face_detection_turn, Hget. cbv beta zeta iota. rewrite Hst, Hp.
        split; [by destruct (eq_str status "SUCCEEDED")|].
        split; [by destruct (eq_str status "SUCCEEDED")|].
        intros d' [= <-] Hd. unfold says_in_progress in Hd.
        rewrite Hst in Hd. injection Hd as ->. done.
    + exists []. split; [done|]. split; [by intros k r|].
      right. simpl rounds. rewrite app_nil_r, Hget.
      split; [simpl; lia|].
      rewrite poll_face_detection_turn, Hget. cbv beta zeta iota. rewrite Hst.
      split; [done|]. split; [done|].
      intros d' [= <-] Hd. unfold says_in_progress in Hd. by rewrite Hst in Hd.
  - exists []. split; [done|]. split; [by intros k r|].
    right. simpl rounds. rewrite app_nil_r, Hget.
    split; [simpl; lia|].
    rewrite poll_face_detection_turn, Hget. cbv beta zeta iota.
    split; [done|]. split; [done|]. by intros d' [=].
Qed.

(** X4. Whatever the service does, what the poller adds to the history is
    a run of rounds (a request answered IN_PROGRESS, then a sleep of 5)
    and then either nothing, when the fuel is used up, or one last request,
    whose answer is not an IN_PROGRESS response and ends the loop. *)
Theorem poll_face_detection_trace (fuel : nat) (job_id : value) (h : list event) :
  ∃ rs : list (gmap string value),
    Forall says_in_progress rs ∧
    answers_in_turn job_id h rs ∧
    ((length rs = fuel ∧
      poll_face_detection fuel job_id h = (Diverge, h ++ rounds job_id rs)) ∨
     (length rs < fuel ∧
      (poll_face_detection fuel job_id h).1 ≠ Diverge ∧
      (poll_face_detection fuel job_id h).2
      = h ++ rounds job_id rs
          ++ [GetFaceDetection job_id
                (get_face_detection (h ++ rounds job_id rs) job_id)] ∧
      ∀ d : gmap string value,
        get_face_detection (h ++ rounds job_id rs) job_id = Returns d →
        ¬ says_in_progress d)).
Proof. apply poll_face_detection_shape. Qed.

(** X1. When the status request itself raises, after any number of
    IN_PROGRESS answers, the poller raises the same exception; the failed
    request is the last event. *)
Theorem poll_face_detection_service_error (n fuel : nat) (job_id : value)
    (h0 : list event) (rs : list (gmap string value)) (e : exn) :
  length rs = n →
  answers_in_turn job_id h0 rs →
  Forall says_in_progress rs →
  get_face_detection (h0 ++ rounds job_id rs) job_id = Throws e →
  n < fuel →
  poll_face_detection fuel job_id h0
  = (Raise e, h0 ++ rounds job_id rs ++ [GetFaceDetection job_id (Throws e)]).
Proof.
  intros Hlen Hturn Hall Hget Hfuel.
  replace fuel with (length rs + S (fuel - S n)) by lia.
  rewrite (poll_face_detection_rounds rs []); [|by rewrite app_nil_r|done].
  rewrite poll_face_detection_turn, Hget. cbv beta zeta iota. by rewrite app_assoc.
Qed.

(** X2. A response without [JobStatus] makes the poller raise
    [KeyError('JobStatus')], with no sleep and no further request. *)
Theorem poll_face_detection_missing_status (n fuel : nat) (job_id : value)
    (h0 : list event) (rs : list (gmap string value)) (d : gmap string value) :
  length rs = n →
  answers_in_turn job_id h0 (rs ++ [d]) →
  Forall says_in_progress rs →
  d !! "JobStatus" = None →
  n < fuel →
  poll_face_detection fuel job_id h0
  = (Raise (KeyError "JobStatus"), h0 ++ polled job_id rs d).
Proof.
  intros Hlen Hturn Hall Hst Hfuel.
  replace fuel with (length rs + S (fuel - S n)) by lia.
  rewrite (poll_face_detection_rounds rs [d]) by done.
  rewrite poll_face_detection_turn, (answers_in_turn_last rs d) by done.
  cbv beta zeta iota. rewrite Hst. unfold polled. by rewrite app_assoc.
Qed.

(** X3. A job that is IN_PROGRESS whenever it is asked about keeps the
    poller in its loop: with any fuel, the fuel runs out, after as many
    requests and as many sleeps of 5 as there was fuel. *)
Theorem poll_face_detection_stuck (fuel : nat) (job_id : value) (h0 : list event) :
  (∀ rs : list (gmap string value),
      Forall says_in_progress rs →
      ∃ d : gmap string value,
        get_face_detection (h0 ++ rounds job_id rs) job_id = Returns d ∧
        says_in_progress d) →
  ∃ rs : list (gmap string value),
    length rs = fuel ∧
    Forall says_in_progress rs ∧
    poll_face_detection fuel job_id h0 = (Diverge, h0 ++ rounds job_id rs) ∧
    length (status_requests (rounds job_id rs)) = fuel ∧
    sleeps (rounds job_id rs) = replicate fuel 5%Z.
Proof.
  intros Hstuck.
  destruct (poll_face_detection_shape fuel job_id h0)
    as (rs & Hall & Hturn & [[Hlen Hrun]|(Hlen & Hout & Hhist & Hlast)]).
  - exists rs. split; [done|]. split; [done|]. split; [done|].
    by rewrite rounds_requests, length_fmap, rounds_sleeps, Hlen.
  - destruct (Hstuck rs Hall) as (d & Hget & Hd). by destruct (Hlast d Hget).
Qed.

End PollerEdges.

Lemma poll_face_detection_service_error_witness :
  @poll_face_detection
    (stub_services "" [in_progress] (Throws (ServiceError "unused"))) 2
    (VStr "job-1") []
  = (Raise (ServiceError "no scripted response left"),
     [] ++ rounds (VStr "job-1") [in_progress]
        ++ [GetFaceDetection (VStr "job-1")
              (Throws (ServiceError "no scripted response left"))]).
Proof.
  apply (@poll_face_detection_service_error
           (stub_services "" [in_progress] (Throws (ServiceError "unused")))
           1 2 (VStr "job-1") [] [in_progress]).
  - reflexivity.
  - intros [|k] r [= <-]; reflexivity.
  - repeat constructor.
  - reflexivity.
  - lia.
Defined.

Lemma poll_face_detection_missing_status_witness :
  @poll_face_detection malformed_script 2 (VStr "job-1") []
  = (Raise (KeyError "JobStatus"),
     [] ++ polled (VStr "job-1") [in_progress]
             {[ "StatusMessage" := VStr "internal error" ]}).
Proof.
  apply (@poll_face_detection_missing_status malformed_script 1 2 (VStr "job-1") []
           [in_progress] {[ "StatusMessage" := VStr "internal error" ]}).
  - reflexivity.
  - intros [|[|k]] r [= <-]; reflexivity.
  - repeat constructor.
  - reflexivity.
  - lia.
Defined.

Lemma poll_face_detection_stuck_witness :
  ∃ rs : list (gmap string value),
    length rs = 4 ∧
    Forall says_in_progress rs ∧
    @poll_face_detection stuck_services 4 (VStr "job-1") []
    = (Diverge, [] ++ rounds (VStr "job-1") rs) ∧
    length (status_requests (rounds (VStr "job-1") rs)) = 4 ∧
    sleeps (rounds (VStr "job-1") rs) = replicate 4 5%Z.
Proof.
  apply (@poll_face_detection_stuck stuck_services 4 (VStr "job-1") []).
  intros rs _. exists in_progress. split; reflexivity.
Defined.

(* ================================================================== *)
(** * More on the handlers *)

Lemma allowed_file_total (filename : string) :
  ∃ b : bool, allowed_file filename = Ret b.
Proof.
  destruct (Str.rpartition "." filename) as [[stem ext]|] eqn:E.
  - apply rpartition_Some in E as [-> Hno]. eexists. by apply allowed_file_with_dot.
  - apply rpartition_None in E. exists false. by apply allowed_file_without_dot.
Qed.

Lemma basename_no_separator (p : string) :
  Str.contains "/" (posixpath.basename p) = false.
Proof.
  unfold posixpath.basename.
  destruct (Str.rpartition "/" p) as [[head tail]|] eqn:E.
  - by apply rpartition_Some in E as [_ Hno].
  - by apply rpartition_None.
Qed.

Section HandlerEdges.
Context `{Runtime} `{Services}.


(** X8. When the submission answers without a [JobId], the handler answers
    500 with the message of the [KeyError], and no status request is made. *)
Theorem process_face_detection_missing_job_id (fuel : nat) (key : string)
    (h : list event) (started : gmap string value) :
  start_face_detection h (s3_video key) "ALL" = Returns started →
  started !! "JobId" = None →
  process_face_detection fuel key h
  = (Ret (error_body "'JobId'", 500%Z),
     h ++ [StartFaceDetection (s3_video key) "ALL" (Returns started)]).
Proof.
  intros Hstart Hjob. rewrite process_face_detection_run, Hstart.
  cbv beta zeta iota. by rewrite Hjob.
Qed.

(** What the stages return is the payload of a SUCCEEDED response. *)
Lemma upload_stages_returns (fuel : nat) (file : FileStorage) (h h' : list event)
    (v : value) :
  upload_stages fuel file h = (Ret v, h') →
  ∃ (job_id : value) (final : gmap string value),
    v = detection_payload final ∧
    last h' = Some (GetFaceDetection job_id (Returns final)) ∧
    final !! "JobStatus" = Some (VStr "SUCCEEDED").
Proof.
  rewrite upload_stages_run. cbv zeta.
  destruct (file_save h file _) as [[]|e]; [|done].
  destruct (convert_video_to_aws_rekognition _ _) as [converted|e]; [|done].
  destruct (s3_upload_file _ _ _ _) as [[]|e]; [|done].
  destruct (start_face_detection _ _ _) as [started|e]; [|done].
  destruct (started !! "JobId") as [job_id|]; [|done].
  intros Hpoll.
  destruct (poll_face_detection_returns _ _ _ _ _ Hpoll) as (final & Hlast & Hst & ->).
  by exists job_id, final.
Qed.

(** X7. [upload_video] never raises, and its answers have three shapes:
    400 with an error body and nothing done; 500 with an error body; 200
    with the payload of a SUCCEEDED response, the last thing received. *)
Theorem upload_video_answers (fuel : nat) (files : gmap string FileStorage)
    (h : list event) :
  (upload_video fuel files h).1 = Diverge ∨
  (∃ msg : string,
      upload_video fuel files h = (Ret (error_body msg, 400%Z), h)) ∨
  (∃ msg : string,
      (upload_video fuel files h).1 = Ret (error_body msg, 500%Z)) ∨
  (∃ (job_id : value) (final : gmap string value),
      (upload_video fuel files h).1 = Ret (detection_payload final, 200%Z) ∧
      last (upload_video fuel files h).2
      = Some (GetFaceDetection job_id (Returns final)) ∧
      final !! "JobStatus" = Some (VStr "SUCCEEDED")).
Proof.
  destruct (files !! "file") as [file|] eqn:Hfile;
    [|right; left; eexists; unfold upload_video; by rewrite Hfile].
  destruct (String.eqb (filename file) "") eqn:Hname;
    [right; left; eexists; unfold upload_video; by rewrite Hfile, Hname|].
  destruct (allowed_file_total (filename file)) as [[|] Hallowed].
  - rewrite (upload_video_stages _ _ file)
      by (split; [done|split; [by apply String.eqb_neq|done]]).
    destruct (upload_stages fuel file h) as [[v|e|] h'] eqn:Hstages.
    + right. right. right.
      destruct (upload_stages_returns _ _ _ _ _ Hstages) as (job_id & final & -> & ? & ?).
      by exists job_id, final.
    + right. right. left. by eexists.
    + by left.
  - right. left. eexists. unfold upload_video. rewrite Hfile, Hname.
    unfold mbind, M_bind, lift. by rewrite Hallowed.
Qed.

(** X6. The answer is 400 exactly for the requests that fail one of the
    three checks: no file part, an empty filename, a name that
    [allowed_file] rejects. *)
Theorem upload_video_400_iff (fuel : nat) (files : gmap string FileStorage)
    (h : list event) :
  (∃ body : value, (upload_video fuel files h).1 = Ret (body, 400%Z)) ↔
  (files !! "file" = None ∨
   ∃ file : FileStorage,
     files !! "file" = Some file ∧
     (filename file = "" ∨ allowed_file (filename file) = Ret false)).
Proof.
  destruct (files !! "file") as [file|] eqn:Hfile.
  - destruct (String.eqb (filename file) "") eqn:Hname.
    + split.
      * intros _. right. exists file. split; [done|]. left. by apply String.eqb_eq.
      * intros _. eexists. unfold upload_video. by rewrite Hfile, Hname.
    + destruct (allowed_file_total (filename file)) as [[|] Hallowed].
      * split.
        -- intros [body Hbody]. exfalso. revert Hbody.
           rewrite (upload_video_stages _ _ file)
             by (split; [done|split; [by apply String.eqb_neq|done]]).
           by destruct (upload_stages fuel file h) as [[v|e|] h'].
        -- intros [|(file' & [= <-] & [Hempty|Hrej])]; [done| |].
           ++ apply String.eqb_neq in Hname. done.
           ++ rewrite Hallowed in Hrej. done.
      * split.
        -- intros _. right. exists file. split; [done|]. by right.
        -- intros _. eexists. unfold upload_video. rewrite Hfile, Hname.
           unfold mbind, M_bind, lift. by rewrite Hallowed.
  - split; [by left|]. intros _. eexists. unfold upload_video. by rewrite Hfile.
Qed.

End HandlerEdges.

Lemma process_face_detection_missing_job_id_witness :
  @process_face_detection stub_runtime no_job_id_services 3 "converted_clip.mp4" []
  = (Ret (error_body "'JobId'", 500%Z),
     [] ++ [StartFaceDetection (s3_video "converted_clip.mp4") "ALL"
              (Returns {[ "ResponseMetadata" := VDict ∅ ]})]).
Proof.
  apply (@process_face_detection_missing_job_id stub_runtime no_job_id_services 3
           "converted_clip.mp4" [] {[ "ResponseMetadata" := VDict ∅ ]}).
  - reflexivity.
  - reflexivity.
Defined.

(* ================================================================== *)
(** * The calls of one upload *)

Section UploadHistory.
Context `{Runtime} `{Services}.

(** The poller asks about the job it was given, and about no other. *)
Lemma poll_face_detection_requests (fuel : nat) (job_id : value) (h : list event) :
  ∃ polls : list event,
    (poll_face_detection fuel job_id h).2 = h ++ polls ∧
    forallb is_poll_event polls = true ∧
    ∀ (j : value) (r : reply (gmap string value)),
      (j, r) ∈ status_requests polls → j = job_id.
Proof.
  destruct (poll_face_detection_history fuel job_id h) as (polls & Hpolls & Hall).
  exists polls. split; [done|]. split; [done|].
  destruct (poll_face_detection_shape fuel job_id h)
    as (rs & _ & _ & [[_ Hrun]|(_ & _ & Hhist & _)]).
  - rewrite Hrun in Hpolls. simpl in Hpolls. apply app_inv_head in Hpolls as <-.
    intros j r. rewrite rounds_requests.
    by intros (d & [= -> _] & _)%list_elem_of_fmap.
  - rewrite Hhist in Hpolls. apply app_inv_head in Hpolls as <-.
    intros j r. rewrite status_requests_app, rounds_requests, elem_of_app.
    intros [(d & [= -> _] & _)%list_elem_of_fmap|Hlast]; [done|].
    simpl in Hlast. by apply list_elem_of_singleton in Hlast as [= -> _].
Qed.

(** What one request to [/upload] adds to the history: nothing, or the
    calls of the pipeline in their order, up to the first that raises. *)
Lemma upload_video_history (fuel : nat) (files : gmap string FileStorage)
    (h : list event) :
  ∃ new : list event,
    (upload_video fuel files h).2 = h ++ new ∧
    (new = [] ∨
     ∃ (file : FileStorage) (saved : string),
       (∃ e, new = [FileSave file saved (Throws e)]) ∨
       (∃ e, new = [FileSave file saved (Returns ()); ConvertVideo saved (Throws e)]) ∨
       (∃ converted e,
           new = [FileSave file saved (Returns ());
                  ConvertVideo saved (Returns converted);
                  S3UploadFile converted S3_BUCKET (posixpath.basename converted)
                    (Throws e)]) ∨
       (∃ converted r polls,
           new = [FileSave file saved (Returns ());
                  ConvertVideo saved (Returns converted);
                  S3UploadFile converted S3_BUCKET (posixpath.basename converted)
                    (Returns ());
                  StartFaceDetection (s3_video (posixpath.basename converted)) "ALL" r]
                 ++ polls ∧
           forallb is_poll_event polls = true ∧
           ∀ (j : value) (x : reply (gmap string value)),
             (j, x) ∈ status_requests polls →
             ∃ started : gmap string value,
               r = Returns started ∧ started !! "JobId" = Some j)).
Proof.
  assert (∀ file, valid_upload files file →
            (upload_video fuel files h).2 = (upload_stages fuel file h).2) as Hsame.
  { intros file Hvalid. rewrite (upload_video_stages _ _ file) by done.
    by destruct (upload_stages fuel file h) as [[v|e|] h']. }
  destruct (files !! "file") as [file|] eqn:Hfile;
    [|exists []; unfold upload_video; rewrite Hfile, app_nil_r; by split; [|left]].
  destruct (String.eqb (filename file) "") eqn:Hname;
    [exists []; unfold upload_video; rewrite Hfile, Hname, app_nil_r;
     by split; [|left]|].
  destruct (allowed_file_total (filename file)) as [[|] Hallowed]; cycle 1.
  { exists []. unfold upload_video. rewrite Hfile, Hname.
    unfold mbind, M_bind, lift. rewrite Hallowed, app_nil_r. by split; [|left]. }
  rewrite (Hsame file) by (split; [done|split; [by apply String.eqb_neq|done]]).
  rewrite upload_stages_run. cbv zeta.
  set (saved := posixpath.join UPLOAD_FOLDER (secure_filename (filename file))).
  destruct (file_save h file saved) as [[]|e].
  2: { eexists [_]. split; [done|]. right. exists file, saved. left. by eexists. }
  destruct (convert_video_to_aws_rekognition _ saved) as [converted|e].
  2: { eexists [_; _]. split; [by rewrite <- app_assoc|].
       right. exists file, saved. right. left. by eexists. }
  destruct (s3_upload_file _ converted _ _) as [[]|e].
  2: { eexists [_; _; _]. split; [by rewrite <- !app_assoc|].
       right. exists file, saved. right. right. left. by eexists _, _. }
  destruct (start_face_detection _ _ _) as [started|e].
  2: { eexists [_; _; _; _]. split; [by rewrite <- !app_assoc|].
       right. exists file, saved. do 3 right. eexists converted, _, [].
       split; [done|]. split; [done|]. intros j x Hin. by apply elem_of_nil in Hin. }
  destruct (started !! "JobId") as [job_id|] eqn:Hjob.
  2: { eexists [_; _; _; _]. split; [by rewrite <- !app_assoc|].
       right. exists file, saved. do 3 right. eexists converted, _, [].
       split; [done|]. split; [done|]. intros j x Hin. by apply elem_of_nil in Hin. }
  destruct (poll_face_detection_requests fuel job_id
              ((((h ++ [FileSave file saved (Returns ())])
                 ++ [ConvertVideo saved (Returns converted)])
                ++ [S3UploadFile converted S3_BUCKET (posixpath.basename converted)
                      (Returns ())])
               ++ [StartFaceDetection (s3_video (posixpath.basename converted)) "ALL"
                     (Returns started)]))
    as (polls & -> & Hpolls & Hjobs).
  exists ([FileSave file saved (Returns ());
           ConvertVideo saved (Returns converted);
           S3UploadFile converted S3_BUCKET (posixpath.basename converted) (Returns ());
           StartFaceDetection (s3_video (posixpath.basename converted)) "ALL"
             (Returns started)] ++ polls).
  split; [by rewrite <- !app_assoc|].
  right. exists file, saved. do 3 right. exists converted, (Returns started), polls.
  split; [done|]. split; [done|].
  intros j x Hin. exists started. split; [done|]. by rewrite (Hjobs j x Hin).
Qed.


(** X10. The store is called at most once per request: with the path the
    transcoder returned, in the bucket of the configuration, under the
    basename of that path, which holds no separator. *)
Theorem upload_video_store_call (fuel : nat) (files : gmap string FileStorage)
    (h : list event) :
  ∃ new : list event,
    (upload_video fuel files h).2 = h ++ new ∧
    length (store_calls new) ≤ 1 ∧
    ∀ path bucket key : string,
      (path, bucket, key) ∈ store_calls new →
      bucket = S3_BUCKET ∧
      key = posixpath.basename path ∧
      Str.contains "/" key = false ∧
      ∃ saved : string, ConvertVideo saved (Returns path) ∈ new.
Proof.
  destruct (upload_video_history fuel files h) as (new & Hnew & Hshape).
  exists new. split; [done|].
  destruct Hshape as [->|(file & saved & [[e ->]|[[e ->]|[(converted & e & ->)|
    (converted & r & polls & -> & Hpolls & Hjobs)]]])].
  - split; [simpl; lia|]. by intros p b k Hin%elem_of_nil.
  - split; [simpl; lia|]. by intros p b k Hin%elem_of_nil.
  - split; [simpl; lia|]. by intros p b k Hin%elem_of_nil.
  - split; [simpl; lia|].
    intros p b k [= -> -> ->]%list_elem_of_singleton.
    split; [done|]. split; [done|]. split; [apply basename_no_separator|].
    exists saved. apply list_elem_of_further, list_elem_of_here.
  - rewrite store_calls_app, (store_calls_poll_events polls Hpolls). simpl.
    split; [lia|].
    intros p b k [= -> -> ->]%list_elem_of_singleton.
    split; [done|]. split; [done|]. split; [apply basename_no_separator|].
    exists saved. apply list_elem_of_further, list_elem_of_here.
Qed.

End UploadHistory.

(** A valid upload leaves the history that its stages leave. *)
Lemma valid_upload_stages_history `{Runtime} `{Services} (fuel : nat)
    (files : gmap string FileStorage) (file : FileStorage) (h : list event) :
  valid_upload files file →
  (upload_video fuel files h).2 = (upload_stages fuel file h).2.
Proof.
  intros Hvalid. rewrite (upload_video_stages _ _ file) by done.
  by destruct (upload_stages fuel file h) as [[v|e|] h'].
Qed.

(** X11. When every stage up to the submission succeeds and the job is
    IN_PROGRESS whenever it is asked about, the upload request gets no
    answer: with any fuel the handler is still polling when it runs out,
    one request and one sleep of 5 per unit of fuel. *)
Theorem upload_video_blocks `{Runtime} `{Services} (fuel : nat)
    (files : gmap string FileStorage) (file : FileStorage) (h0 : list event)
    (converted : string) (started : gmap string value) (job_id : value) :
  let saved := posixpath.join UPLOAD_FOLDER (secure_filename (filename file)) in
  let key := posixpath.basename converted in
  let h1 := h0 ++ [FileSave file saved (Returns ())] in
  let h2 := h1 ++ [ConvertVideo saved (Returns converted)] in
  let h3 := h2 ++ [S3UploadFile converted S3_BUCKET key (Returns ())] in
  let h4 := h3 ++ [StartFaceDetection (s3_video key) "ALL" (Returns started)] in
  valid_upload files file →
  file_save h0 file saved = Returns () →
  convert_video_to_aws_rekognition h1 saved = Returns converted →
  s3_upload_file h2 converted S3_BUCKET key = Returns () →
  start_face_detection h3 (s3_video key) "ALL" = Returns started →
  started !! "JobId" = Some job_id →
  (∀ rs : list (gmap string value),
      Forall says_in_progress rs →
      ∃ d : gmap string value,
        get_face_detection (h4 ++ rounds job_id rs) job_id = Returns d ∧
        says_in_progress d) →
  ∃ rs : list (gmap string value),
    length rs = fuel ∧
    upload_video fuel files h0 = (Diverge, h4 ++ rounds job_id rs).
Proof.
  intros saved key h1 h2 h3 h4 Hvalid Hsave Hconvert Hstore Hstart Hjob Hstuck.
  rewrite (upload_video_stages _ _ file) by done.
  rewrite upload_stages_run. cbv zeta.
  fold saved. rewrite Hsave. fold h1. rewrite Hconvert. fold key h2.
  rewrite Hstore. fold h3. rewrite Hstart. fold h4. rewrite Hjob.
  destruct (poll_face_detection_shape fuel job_id h4)
    as (rs & Hall & Hturn & [[Hlen Hrun]|(Hlen & Hout & Hhist & Hlast)]).
  - exists rs. by rewrite Hrun.
  - destruct (Hstuck rs Hall) as (d & Hget & Hd). by destruct (Hlast d Hget).
Qed.

Lemma upload_video_blocks_witness :
  ∃ rs : list (gmap string value),
    length rs = 7 ∧
    @upload_video stub_runtime stuck_services 7 mp4_request []
    = (Diverge,
       ((([] ++ [FileSave {| filename := "holiday clip.MP4"; stream := "..." |}
                   "/srv/app/uploads/holiday_clip.MP4" (Returns ())])
          ++ [ConvertVideo "/srv/app/uploads/holiday_clip.MP4"
                (Returns "/tmp/converted_clip.mp4")])
         ++ [S3UploadFile "/tmp/converted_clip.mp4" S3_BUCKET "converted_clip.mp4"
               (Returns ())])
        ++ [StartFaceDetection (s3_video "converted_clip.mp4") "ALL"
              (Returns {[ "JobId" := VStr "job-1" ]})]
        ++ rounds (VStr "job-1") rs).
Proof.
  apply (@upload_video_blocks stub_runtime stuck_services 7 mp4_request
           {| filename := "holiday clip.MP4"; stream := "..." |} []
           "/tmp/converted_clip.mp4" {[ "JobId" := VStr "job-1" ]} (VStr "job-1")).
  - repeat split. discriminate.
  - reflexivity.
  - reflexivity.
  - reflexivity.
  - reflexivity.
  - reflexivity.
  - intros rs _. exists in_progress. split; reflexivity.
Defined.

(** X16. A valid upload is written to disk exactly once, before any other
    call, at the join of the upload folder and the sanitised name, and
    whatever the later stages do: nothing that follows is a write. *)
Theorem upload_video_writes_once `{Runtime} `{Services} (fuel : nat)
    (files : gmap string FileStorage) (file : FileStorage) (h : list event) :
  valid_upload files file →
  ∃ (r : reply unit) (rest : list event),
    (upload_video fuel files h).2
    = h ++ FileSave file
             (posixpath.join UPLOAD_FOLDER (secure_filename (filename file))) r
           :: rest ∧
    ∀ (file' : FileStorage) (dst : string) (r' : reply unit),
      FileSave file' dst r' ∉ rest.
Proof.
  intros Hvalid. rewrite (valid_upload_stages_history _ _ file) by done.
  rewrite upload_stages_run. cbv zeta.
  set (saved := posixpath.join UPLOAD_FOLDER (secure_filename (filename file))).
  destruct (file_save h file saved) as [[]|e].
  2: { eexists _, []. split; [done|]. intros f d r. apply not_elem_of_nil. }
  destruct (convert_video_to_aws_rekognition _ saved) as [converted|e].
  2: { eexists _, [_]. split; [by rewrite <- app_assoc|].
       intros f d r Hin. by apply list_elem_of_singleton in Hin. }
  destruct (s3_upload_file _ converted _ _) as [[]|e].
  2: { eexists _, [_; _]. split; [by rewrite <- !app_assoc|].
       intros f d r Hin. by repeat (apply elem_of_cons in Hin as [?|Hin]);
         [..|apply elem_of_nil in Hin]. }
  assert (∀ polls : list event, forallb is_poll_event polls = true →
            ∀ f d r, FileSave f d r ∉ polls) as Hpolls.
  { intros polls Hall f d r Hin%list_elem_of_In.
    rewrite forallb_forall in Hall. by specialize (Hall _ Hin). }
  destruct (start_face_detection _ _ _) as [started|e].
  2: { eexists _, [_; _; _]. split; [by rewrite <- !app_assoc|].
       intros f d r Hin. by repeat (apply elem_of_cons in Hin as [?|Hin]);
         [..|apply elem_of_nil in Hin]. }
  destruct (started !! "JobId") as [job_id|].
  2: { eexists _, [_; _; _]. split; [by rewrite <- !app_assoc|].
       intros f d r Hin. by repeat (apply elem_of_cons in Hin as [?|Hin]);
         [..|apply elem_of_nil in Hin]. }
  destruct (poll_face_detection_history fuel job_id
              ((((h ++ [FileSave file saved (Returns ())])
                 ++ [ConvertVideo saved (Returns converted)])
                ++ [S3UploadFile converted S3_BUCKET (posixpath.basename converted)
                      (Returns ())])
               ++ [StartFaceDetection (s3_video (posixpath.basename converted)) "ALL"
                     (Returns started)]))
    as (polls & -> & Hall).
  eexists _, (_ :: _ :: _ :: polls). split; [by rewrite <- !app_assoc|].
  intros f d r Hin.
  repeat (apply elem_of_cons in Hin as [?|Hin]); [done..|].
  by apply (Hpolls polls Hall f d r).
Qed.

Lemma upload_video_writes_once_witness :
  ∃ (r : reply unit) (rest : list event),
    (@upload_video stub_runtime failed_script 3 mp4_request []).2
    = [] ++ FileSave {| filename := "holiday clip.MP4"; stream := "..." |}
              (posixpath.join (@UPLOAD_FOLDER stub_runtime) "holiday_clip.MP4") r
            :: rest ∧
    ∀ (file' : FileStorage) (dst : string) (r' : reply unit),
      FileSave file' dst r' ∉ rest.
Proof.
  apply (@upload_video_writes_once stub_runtime failed_script 3 mp4_request
           {| filename := "holiday clip.MP4"; stream := "..." |} []).
  repeat split. discriminate.
Defined.

(* ================================================================== *)
(** * More on POST /gpt *)

(** X12. For a body that is a JSON object, [gpt_api] never raises. A falsy
    "input" (absent, empty, null, zero, false) is answered 400 with no
    call; any other input, of whatever JSON type, goes unchanged as the
    content of the one user message of exactly one completion call, and
    the answer is 200 or 500. *)
Theorem gpt_api_answers `{Runtime} `{Services} (d : gmap string value)
    (h : list event) :
  let user_input := dict_get d "input" (VStr "") in
  (truthy user_input = false ∧
   gpt_api (VDict d) h = (Ret (error_body "No input provided", 400%Z), h)) ∨
  (truthy user_input = true ∧
   ∃ (body : value) (code : Z) (r : reply ChatCompletion),
     gpt_api (VDict d) h
     = (Ret (body, code),
        h ++ [ChatCompletionsCreate "gpt-3.5-turbo" (user_message user_input) 150 r]) ∧
     (code = 200%Z ∨ code = 500%Z)).
Proof.
  intros user_input. destruct (truthy user_input) eqn:Htruthy.
  - right. split; [done|]. rewrite gpt_api_truthy by done. cbv zeta.
    fold user_input. fold (user_message user_input).
    destruct (chat_completions_create h _ _ _) as [completion|e].
    + destruct (choices completion) as [|first others].
      * eexists _, _, _. split; [done|]. by right.
      * eexists _, _, _. split; [done|]. by left.
    + eexists _, _, _. split; [done|]. by right.
  - left. split; [done|]. by apply gpt_api_falsy.
Qed.

(** X13. A body that is not a JSON object (null, a list, a string, a
    number) makes the handler itself raise [AttributeError], outside its
    [try], before any call. *)
Theorem gpt_api_not_object `{Runtime} `{Services} (data : value) (h : list event) :
  (∀ d : gmap string value, data ≠ VDict d) →
  gpt_api data h
  = (Raise (AttributeError
              ("'" +:+ type_name data +:+ "' object has no attribute 'get'")), h).
Proof.
  intros Hdata. unfold gpt_api, mbind, M_bind, lift, get_method.
  destruct data; try done. by destruct (Hdata d).
Qed.

Lemma gpt_api_not_object_witness :
  @gpt_api stub_runtime succeeding_script (VList [VStr "hello"]) []
  = (Raise (AttributeError "'list' object has no attribute 'get'"), []).
Proof.
  apply (@gpt_api_not_object stub_runtime succeeding_script (VList [VStr "hello"]) []).
  discriminate.
Defined.

(** X14. When the completion call raises, the answer is 500 with the
    message of that exception; when it returns no choice at all, the
    answer is 500 with the message of the [IndexError]. Either way the call
    is made once and not repeated. *)
Theorem gpt_api_failure `{Runtime} `{Services} (d : gmap string value)
    (h : list event) :
  let user_input := dict_get d "input" (VStr "") in
  let r := chat_completions_create h "gpt-3.5-turbo" (user_message user_input) 150 in
  let h' := h ++ [ChatCompletionsCreate "gpt-3.5-turbo" (user_message user_input) 150 r] in
  truthy user_input = true →
  (∀ e : exn, r = Throws e →
     gpt_api (VDict d) h = (Ret (error_body (str_exn e), 500%Z), h')) ∧
  (∀ completion : ChatCompletion,
     r = Returns completion → choices completion = [] →
     gpt_api (VDict d) h = (Ret (error_body "list index out of range", 500%Z), h')).
Proof.
  intros user_input r h' Htruthy.
  rewrite gpt_api_truthy by done. cbv zeta.
  fold user_input. fold (user_message user_input). fold r. fold h'.
  split.
  - by intros e ->.
  - by intros completion -> ->.
Qed.

Lemma gpt_api_failure_witness :
  @gpt_api stub_runtime failed_script (VDict {[ "input" := VStr "hello" ]}) []
  = (Ret (error_body "completion service unavailable", 500%Z),
     [] ++ [ChatCompletionsCreate "gpt-3.5-turbo" (user_message (VStr "hello")) 150
              (Throws (ServiceError "completion service unavailable"))]).
Proof.
  destruct (@gpt_api_failure stub_runtime failed_script
              {[ "input" := VStr "hello" ]} []) as [Hraises _].
  - reflexivity.
  - apply (Hraises (ServiceError "completion service unavailable")). reflexivity.
Defined.

Example gpt_api_edge_examples :
  @gpt_api stub_runtime no_job_id_services (VDict {[ "input" := VNum 7 ]}) []
  = (Ret (error_body "list index out of range", 500%Z),
     [ChatCompletionsCreate "gpt-3.5-turbo" (user_message (VNum 7)) 150
        (Returns {| choices := [] |})]) ∧
  (@gpt_api stub_runtime malformed_script (VDict {[ "input" := VStr "hello" ]}) []).1
  = Ret (VDict {[ "response" := VNull ]}, 200%Z).
Proof. split; reflexivity. Qed.

(* ================================================================== *)
(** * More on save_uploaded_file *)

(** X15. [save_uploaded_file] checks nothing itself: were the sanitised
    name to begin with a separator, the write would go to that name as an
    absolute path, whatever the upload folder. *)
Theorem save_uploaded_file_unchecked `{Runtime} `{Services} (file : FileStorage)
    (upload_folder : string) (h : list event) :
  Str.startswith "/" (secure_filename (filename file)) = true →
  (save_uploaded_file file upload_folder h).2
  = h ++ [FileSave file (secure_filename (filename file))
            (file_save h file (secure_filename (filename file)))].
Proof.
  intros Habs. rewrite save_uploaded_file_run. cbv zeta. simpl.
  unfold posixpath.join. by rewrite Habs.
Qed.

Lemma save_uploaded_file_unchecked_witness :
  (@save_uploaded_file raw_runtime succeeding_script
     {| filename := "/etc/passwd"; stream := "root" |} "/srv/app/uploads" []).2
  = [] ++ [FileSave {| filename := "/etc/passwd"; stream := "root" |} "/etc/passwd"
             (Returns ())].
Proof.
  apply (@save_uploaded_file_unchecked raw_runtime succeeding_script
           {| filename := "/etc/passwd"; stream := "root" |} "/srv/app/uploads" []).
  reflexivity.
Defined.
